(** * fink-science, module [standardized_flux]: the normalizer and its dispatcher

    Shallow embedding of
      - [src/fink_science/standardized_flux/utils.py]      ([standardized_flux_])
      - [src/fink_science/standardized_flux/processor.py]  ([standardized_flux])

    Floating point values are IEEE binary64 numbers ([PrimFloat.float]),
    as numpy's [float64].  Exceptions are results of type [result];
    calls to the two collaborators of the normalizer (the catalog
    selection and the flux conversion primitive [apparent_flux]) are
    recorded, in order, in a log threaded through the computation. *)

From Stdlib Require Import List ZArith String Bool Floats Lia.
Import ListNotations.

Set Implicit Arguments.

Abbreviation length := Datatypes.length.

(* ===================================================================== *)
(** ** Python, numpy and pandas operations used by the source            *)
(* ===================================================================== *)

Module Py.

(** The exceptions the source can raise. *)
Inductive exn : Type :=
| IndexError   (* sequence index out of range *)
| NameError    (* a name that is bound nowhere *)
| ValueError.  (* shape mismatch, wrong number of values to unpack *)

Inductive result (A : Type) : Type :=
| Ok (a : A)
| Raise (e : exn).
Arguments Ok {A} a.
Arguments Raise {A} e.

Definition is_Raise {A} (r : result A) : bool :=
  match r with Ok _ => false | Raise _ => true end.

Definition rmap {A B} (f : A -> B) (r : result A) : result B :=
  match r with Ok a => Ok (f a) | Raise e => Raise e end.

(** [l[i]] on a Python list or a numpy array: negative indices count
    from the end, anything outside [-len, len) raises [IndexError]. *)
Definition py_index {A} (l : list A) (i : Z) : result A :=
  let n := Z.of_nat (length l) in
  let j := if (i <? 0)%Z then (n + i)%Z else i in
  if ((0 <=? j) && (j <? n))%Z
  then match nth_error l (Z.to_nat j) with
       | Some x => Ok x
       | None => Raise IndexError
       end
  else Raise IndexError.

(** [np.full(n, v)] *)
Definition np_full {A} (n : nat) (v : A) : list A := repeat v n.

(** [np.transpose(rows)] for a list of [(flux, sigma)] tuples: an
    [N x 2] array becomes [2 x N]; the empty list is an array of shape
    [(0,)], which transposes to itself. *)
Definition np_transpose (rows : list (float * float)) : list (list float) :=
  match rows with
  | [] => []
  | _ :: _ => [map fst rows; map snd rows]
  end.

(** [c * arr], broadcast over a two-dimensional array. *)
Definition np_scale (c : float) (arr : list (list float)) : list (list float) :=
  map (map (PrimFloat.mul c)) arr.

(** [a, b = arr]: unpacking along the first axis. *)
Definition unpack2 {A} (arr : list A) : result (A * A) :=
  match arr with
  | [a; b] => Ok (a, b)
  | _ => Raise ValueError
  end.

(** [Series.unique()]: distinct values in order of first appearance. *)
Fixpoint unique (l : list Z) : list Z :=
  match l with
  | [] => []
  | x :: t => x :: filter (fun y => negb (y =? x)%Z) (unique t)
  end.

(** [arr[mask]] with a boolean mask: the entries where the mask holds;
    a mask of another length raises [IndexError]. *)
Fixpoint mask_select {A} (arr : list A) (mask : list bool) : result (list A) :=
  match arr, mask with
  | [], [] => Ok []
  | x :: arr', b :: mask' =>
      if b then rmap (cons x) (mask_select arr' mask')
      else mask_select arr' mask'
  | _, _ => Raise IndexError
  end.

(** [arr[mask] = vals]: the values are written, in order, where the mask
    holds; numpy raises [ValueError] unless there is exactly one value
    per selected position. *)
Fixpoint mask_assign {A} (arr : list A) (mask : list bool) (vals : list A)
  : result (list A) :=
  match arr, mask with
  | [], [] => match vals with [] => Ok [] | _ :: _ => Raise ValueError end
  | x :: arr', b :: mask' =>
      if b then
        match vals with
        | v :: vals' => rmap (cons v) (mask_assign arr' mask' vals')
        | [] => Raise ValueError
        end
      else rmap (cons x) (mask_assign arr' mask' vals)
  | _, _ => Raise IndexError
  end.

End Py.
Import Py.

(* ===================================================================== *)
(** ** Computations: exceptions and the log of collaborator calls        *)
(* ===================================================================== *)

(** What the normalizer asks of its collaborators. *)
Inductive event : Type :=
| CatalogLookup (name : string)
    (* [CTAO_blazar.loc[CTAO_blazar['ZTF Name'] == name]] *)
| FluxCall (magpsf sigmapsf magnr sigmagnr : float) (isdiffpos : string).
    (* [apparent_flux(magpsf, sigmapsf, magnr, sigmagnr, isdiffpos)] *)

Definition log := list event.

Definition M (A : Type) : Type := log -> log * result A.

Definition ret {A} (a : A) : M A := fun s => (s, Ok a).

Definition bind {A B} (m : M A) (k : A -> M B) : M B :=
  fun s => match m s with
           | (s', Ok a) => k a s'
           | (s', Raise e) => (s', Raise e)
           end.

Definition lift {A} (r : result A) : M A := fun s => (s, r).

Definition emit (e : event) : M unit := fun s => (s ++ [e], Ok tt).

Declare Scope comp_scope.
Delimit Scope comp_scope with comp.
Notation "x <- m ;; k" := (bind m (fun x => k))
  (at level 61, m at next level, right associativity) : comp_scope.
Notation "' p <- m ;; k" := (bind m (fun p => k))
  (at level 61, p pattern, m at next level, right associativity) : comp_scope.
Local Open Scope comp_scope.

(** [[f(x) for x in l]] *)
Fixpoint list_comp {A B} (f : A -> M B) (l : list A) : M (list B) :=
  match l with
  | [] => ret []
  | x :: t => y <- f x ;; ys <- list_comp f t ;; ret (y :: ys)
  end.

(** [for x in l: acc = body(x, acc)] *)
Fixpoint for_each {A S} (l : list A) (body : A -> S -> M S) (acc : S) : M S :=
  match l with
  | [] => ret acc
  | x :: t => acc' <- body x acc ;; for_each t body acc'
  end.

(** A computation is [uniform] when the events it appends and its outcome
    are the same whatever log it starts from: nothing left behind by an
    earlier invocation reaches it. *)
Definition uniform {A} (m : M A) : Prop :=
  exists evs r, forall s, m s = (s ++ evs, r).

(* ===================================================================== *)
(** ** utils.py                                                          *)
(* ===================================================================== *)

Module Utils.

(** One row of the alert history [pdf]; a data frame is the list of
    its rows, and the column [pdf[c]] is [map c pdf]. *)
Record row : Type := {
  candid : Z;
  objectId : string;
  cdistnr : float;
  cmagpsf : float;
  csigmapsf : float;
  cmagnr : float;
  csigmagnr : float;
  cisdiffpos : string;
  cfid : Z;
  cjd : float
}.

Definition DataFrame := list row.

(** One row of the table of monitored sources [CTAO_blazar]. *)
Record source : Type := {
  fgl_name : string;               (* '3FGL Name' *)
  ztf_name : string;               (* 'ZTF Name' *)
  array_of_medians : list float    (* 'Array of Medians' *)
}.

Definition catalog := list source.

(** The names [standardized_flux_] reads from the module's global
    namespace besides its imports.  [precomputed_data] is read at
    line 52; [utils.py] binds it nowhere. *)
Record globals : Type := {
  precomputed_data : option catalog
}.

Definition module_globals : globals := {| precomputed_data := None |}.

Definition global_precomputed_data (g : globals) : result catalog :=
  match precomputed_data g with
  | Some t => Ok t
  | None => Raise NameError
  end.

(** [CTAO_blazar.loc[CTAO_blazar['ZTF Name'] == name]] *)
Definition loc_ztf_name (CTAO_blazar : catalog) (name : string) : M catalog :=
  _ <- emit (CatalogLookup name) ;;
  ret (filter (fun r => String.eqb (ztf_name r) name) CTAO_blazar).

Definition empty {A} (df : list A) : bool :=
  match df with [] => true | _ :: _ => false end.

(** The call of the conversion primitive made for one row. *)
Definition flux_event (r : row) : event :=
  FluxCall (cmagpsf r) (csigmapsf r) (cmagnr r) (csigmagnr r) (cisdiffpos r).

(** The catalog has a row for [name]. *)
Definition in_catalog (CTAO_blazar : catalog) (name : string) : bool :=
  existsb (fun r => String.eqb (ztf_name r) name) CTAO_blazar.


(** The median read for filter [fid] from an array of medians, where the
    index [fid - 1] is in range. *)
Definition median_of (medians : list float) (fid : Z) : float :=
  match py_index medians (fid - 1) with
  | Ok m => m
  | Raise _ => nan
  end.

(** The row [e] with another objectId. *)
Definition with_objectId (o : string) (e : row) : row :=
  {| candid := candid e; objectId := o; cdistnr := cdistnr e;
     cmagpsf := cmagpsf e; csigmapsf := csigmapsf e; cmagnr := cmagnr e;
     csigmagnr := csigmagnr e; cisdiffpos := cisdiffpos e; cfid := cfid e;
     cjd := cjd e |}.

(** The row [e] with other values in the columns [candid], [cdistnr]
    and [cjd]. *)
Definition with_unused (c : Z) (d j : float) (e : row) : row :=
  {| candid := c; objectId := objectId e; cdistnr := d;
     cmagpsf := cmagpsf e; csigmapsf := csigmapsf e; cmagnr := cmagnr e;
     csigmagnr := csigmagnr e; cisdiffpos := cisdiffpos e; cfid := cfid e;
     cjd := j |}.

Section Normalizer.

(** The flux conversion primitive of [fink_utils.photometry.utils]. *)
Variable apparent_flux : float -> float -> float -> float -> string -> float * float.

Definition flux_of (r : row) : float * float :=
  apparent_flux (cmagpsf r) (csigmapsf r) (cmagnr r) (csigmagnr r) (cisdiffpos r).

Definition call_apparent_flux (r : row) : M (float * float) :=
  _ <- emit (flux_event r) ;;
  ret (flux_of r).

(** Lines 38-48: the scaled fluxes and their uncertainties. *)
Definition scaled_fluxes (pdf : DataFrame) : M (list float * list float) :=
  fluxes <- list_comp call_apparent_flux pdf ;;
  lift (unpack2 (np_scale 1000%float (np_transpose fluxes))).

(** Lines 51-54: the body of the loop over the filters. *)
Definition filter_body (g : globals) (pdf : DataFrame)
           (flux_dc sigma_flux_dc : list float)
           (filter : Z) (acc : list float * list float)
  : M (list float * list float) :=
  let '(std_flux, sigma_std_flux) := acc in
  let maskFilt := map (fun r => (cfid r =? filter)%Z) pdf in    (* 51 *)
  t <- lift (global_precomputed_data g) ;;                      (* 52 *)
  medians <- lift (py_index (map array_of_medians t) 0) ;;
  median <- lift (py_index medians (filter - 1)) ;;
  sel <- lift (mask_select flux_dc maskFilt) ;;                 (* 53 *)
  std_flux' <- lift (mask_assign std_flux maskFilt
                       (map (fun x => PrimFloat.div x median) sel)) ;;
  sel_sigma <- lift (mask_select sigma_flux_dc maskFilt) ;;     (* 54 *)
  sigma_std_flux' <- lift (mask_assign sigma_std_flux maskFilt
                             (map (fun x => PrimFloat.div x median) sel_sigma)) ;;
  ret (std_flux', sigma_std_flux').

(** Lines 31-56.  The history columns hold floats already, so
    [astype(float)] leaves them as they are. *)
Definition standardized_flux_ (g : globals) (pdf : DataFrame)
           (CTAO_blazar : catalog) : M (list float * list float) :=
  let std_flux := np_full (length pdf) nan in                   (* 31 *)
  let sigma_std_flux := np_full (length pdf) nan in             (* 32 *)
  name <- lift (py_index (map objectId pdf) 0) ;;               (* 34 *)
  CTAO_data <- loc_ztf_name CTAO_blazar name ;;                 (* 35 *)
  if negb (empty CTAO_data) then                                (* 36 *)
    ' (flux_dc, sigma_flux_dc) <- scaled_fluxes pdf ;;          (* 38-48 *)
    for_each (unique (map cfid pdf))                            (* 50 *)
             (filter_body g pdf flux_dc sigma_flux_dc)          (* 51-54 *)
             (std_flux, sigma_std_flux)
  else
    ret (std_flux, sigma_std_flux).                             (* 56 *)

End Normalizer.

End Utils.

(* ===================================================================== *)
(** ** processor.py                                                      *)
(* ===================================================================== *)

Module Processor.

(** One row of the batch received by the UDF: the scalar columns
    [candid] and [objectId], and one array per history column. *)
Record alert : Type := {
  candid : Z;
  objectId : string;
  cdistnr : list float;
  cmagpsf : list float;
  csigmapsf : list float;
  cmagnr : list float;
  csigmagnr : list float;
  cisdiffpos : list string;
  cfid : list Z;
  cjd : list float
}.

Definition batch := list alert.

(** Lengths of the array-valued entries of the dictionary of lines 148-159. *)
Definition array_lengths (a : alert) : list nat :=
  [ length (cdistnr a); length (cmagpsf a); length (csigmapsf a);
    length (cmagnr a); length (csigmagnr a); length (cisdiffpos a);
    length (cfid a); length (cjd a) ].

Definition all_same (ls : list nat) : bool :=
  match ls with
  | [] => true
  | n :: t => forallb (Nat.eqb n) t
  end.

(** Rows of a frame built from two scalars, repeated on every row, and
    eight arrays of one length. *)
Fixpoint frame_rows (c : Z) (o : string)
         (d m s mr sr : list float) (p : list string) (f : list Z)
         (j : list float) : Utils.DataFrame :=
  match d, m, s, mr, sr, p, f, j with
  | d0 :: d', m0 :: m', s0 :: s', mr0 :: mr', sr0 :: sr', p0 :: p',
    f0 :: f', j0 :: j' =>
      {| Utils.candid := c; Utils.objectId := o; Utils.cdistnr := d0;
         Utils.cmagpsf := m0; Utils.csigmapsf := s0; Utils.cmagnr := mr0;
         Utils.csigmagnr := sr0; Utils.cisdiffpos := p0; Utils.cfid := f0;
         Utils.cjd := j0 |}
      :: frame_rows c o d' m' s' mr' sr' p' f' j'
  | _, _, _, _, _, _, _, _ => []
  end.

(** [pd.DataFrame({...})] on the dictionary of lines 148-159: pandas
    raises [ValueError] ("All arrays must be of the same length") when
    the arrays differ in length, and repeats the scalars otherwise. *)
Definition pd_DataFrame (a : alert) : result Utils.DataFrame :=
  if all_same (array_lengths a) then
    Ok (frame_rows (candid a) (objectId a) (cdistnr a) (cmagpsf a)
                   (csigmapsf a) (cmagnr a) (csigmagnr a) (cisdiffpos a)
                   (cfid a) (cjd a))
  else Raise ValueError.

(** The batch key [candid] is carried by one row only. *)
Fixpoint distinct (l : list Z) : bool :=
  match l with
  | [] => true
  | x :: t => negb (existsb (Z.eqb x) t) && distinct t
  end.

(** One entry of the returned series: [{'flux': ..., 'sigma': ...}]. *)
Record container : Type := {
  flux : list float;
  sigma : list float
}.

(** The number of epochs of a row whose arrays have one length. *)
Definition epochs (a : alert) : nat := length (cfid a).

(** The entry with nothing but NaN, one per epoch. *)
Definition nan_container (a : alert) : container :=
  {| flux := np_full (epochs a) nan; sigma := np_full (epochs a) nan |}.

(** The rows the loop gets through with [precomputed_data] unbound:
    arrays of one length, at least one epoch, and an objectId without a
    row in the catalog. *)
Definition passes (CTAO_blazar : Utils.catalog) (a : alert) : bool :=
  all_same (array_lengths a)
  && negb (Nat.eqb (epochs a) 0)
  && negb (Utils.in_catalog CTAO_blazar (objectId a)).

(** The exception a row that does not pass ends the loop with:
    [ValueError] from the frame of lines 147-160, [IndexError] from line
    34 of the normalizer on a frame without rows, [NameError] from its
    line 52. *)
Definition stops_with (a : alert) : exn :=
  if negb (all_same (array_lengths a)) then ValueError
  else if Nat.eqb (epochs a) 0 then IndexError
  else NameError.

Section Dispatcher.

Variable apparent_flux : float -> float -> float -> float -> string -> float * float.

(** Lines 146-162: the body of the loop over [pdf["candid"]]. *)
Definition dispatch_body (g : Utils.globals) (CTAO_blazar : Utils.catalog)
           (pdf : batch) (candid_ : Z) (out : list container)
  : M (list container) :=
  let tmp := filter (fun a => (candid a =? candid_)%Z) pdf in
  first <- lift (py_index tmp 0) ;;
  sub <- lift (pd_DataFrame first) ;;
  std_flux <- Utils.standardized_flux_ apparent_flux g sub CTAO_blazar ;;
  ret (out ++ [ {| flux := fst std_flux; sigma := snd std_flux |} ]).

(** [CTAO_parquet] is the table [pd.read_parquet(CTAO_PATH)] returns. *)
Definition standardized_flux (g : Utils.globals) (CTAO_parquet : Utils.catalog)
           (pdf : batch) : M (list container) :=
  let CTAO_blazar := CTAO_parquet in
  for_each (map candid pdf) (dispatch_body g CTAO_blazar pdf) [].

End Dispatcher.

End Processor.

(* ===================================================================== *)
(** ** Sample data                                                       *)
(* ===================================================================== *)

Module Samples.

Import Utils.
Local Open Scope string_scope.

(** A stand-in for the conversion primitive: measured magnitude plus
    reference magnitude, and the two uncertainties added. *)
Definition sample_flux (magpsf sigmapsf magnr sigmagnr : float)
           (isdiffpos : string) : float * float :=
  (PrimFloat.add magpsf magnr, PrimFloat.add sigmapsf sigmagnr).

(** The primitive with flux and uncertainty multiplied by [k]. *)
Definition scaled_by (k : float)
           (af : float -> float -> float -> float -> string -> float * float)
           (magpsf sigmapsf magnr sigmagnr : float) (isdiffpos : string)
  : float * float :=
  let '(f, s) := af magpsf sigmapsf magnr sigmagnr isdiffpos in
  (PrimFloat.mul k f, PrimFloat.mul k s).

Definition epoch (o : string) (m s : float) (f : Z) : row :=
  {| candid := 7; objectId := o; cdistnr := 0.5; cmagpsf := m;
     csigmapsf := s; cmagnr := 0; csigmagnr := 0; cisdiffpos := "t";
     cfid := f; cjd := 2460000.5 |}.

Definition monitored : catalog :=
  [ {| fgl_name := "3FGL J0001"; ztf_name := "ZTF18aaaaaaa";
       array_of_medians := [2%float; 4%float] |} ].

(** Two rows carry the same ZTF name, with different medians. *)
Definition monitored_twice : catalog :=
  [ {| fgl_name := "3FGL J0001"; ztf_name := "ZTF18aaaaaaa";
       array_of_medians := [2%float; 4%float] |};
    {| fgl_name := "3FGL J0002"; ztf_name := "ZTF18aaaaaaa";
       array_of_medians := [8%float; 16%float] |} ].

(** An entry with a median for filter 1 only. *)
Definition monitored_short : catalog :=
  [ {| fgl_name := "3FGL J0001"; ztf_name := "ZTF18aaaaaaa";
       array_of_medians := [2%float] |} ].

Definition one_epoch : DataFrame := [ epoch "ZTF18aaaaaaa" 4 0.5 1 ].

Definition two_filters : DataFrame :=
  [ epoch "ZTF18aaaaaaa" 4 0.5 1; epoch "ZTF18aaaaaaa" 6 0.25 2 ].

Definition unmonitored : DataFrame :=
  [ epoch "ZTF19bbbbbbb" 4 0.5 1; epoch "ZTF19bbbbbbb" 6 0.25 2 ].

(** A batch row whose [cjd] array is one entry short. *)
Definition ragged : Processor.alert :=
  {| Processor.candid := 7; Processor.objectId := "ZTF19bbbbbbb";
     Processor.cdistnr := [0.5%float; 0.5%float];
     Processor.cmagpsf := [4%float; 6%float];
     Processor.csigmapsf := [0.5%float; 0.25%float];
     Processor.cmagnr := [0%float; 0%float];
     Processor.csigmagnr := [0%float; 0%float];
     Processor.cisdiffpos := ["t"; "t"];
     Processor.cfid := [1%Z; 2%Z];
     Processor.cjd := [2460000.5%float] |}.

Definition regular : Processor.alert :=
  {| Processor.candid := 8; Processor.objectId := "ZTF19bbbbbbb";
     Processor.cdistnr := [0.5%float];
     Processor.cmagpsf := [4%float];
     Processor.csigmapsf := [0.5%float];
     Processor.cmagnr := [0%float];
     Processor.csigmagnr := [0%float];
     Processor.cisdiffpos := ["t"];
     Processor.cfid := [1%Z];
     Processor.cjd := [2460000.5%float] |}.

(** A batch row with the key of [regular] and other contents. *)
Definition shadowed : Processor.alert :=
  {| Processor.candid := 8; Processor.objectId := "ZTF18aaaaaaa";
     Processor.cdistnr := [0.5%float; 0.5%float];
     Processor.cmagpsf := [4%float; 6%float];
     Processor.csigmapsf := [0.5%float; 0.25%float];
     Processor.cmagnr := [0%float; 0%float];
     Processor.csigmagnr := [0%float; 0%float];
     Processor.cisdiffpos := ["t"; "t"];
     Processor.cfid := [1%Z; 2%Z];
     Processor.cjd := [2460000.5%float; 2460001.5%float] |}.

(** A batch row with two epochs whose objectId is not monitored. *)
Definition regular_two : Processor.alert :=
  {| Processor.candid := 9; Processor.objectId := "ZTF19bbbbbbb";
     Processor.cdistnr := [0.5%float; 0.5%float];
     Processor.cmagpsf := [4%float; 6%float];
     Processor.csigmapsf := [0.5%float; 0.25%float];
     Processor.cmagnr := [0%float; 0%float];
     Processor.csigmagnr := [0%float; 0%float];
     Processor.cisdiffpos := ["t"; "t"];
     Processor.cfid := [1%Z; 2%Z];
     Processor.cjd := [2460000.5%float; 2460001.5%float] |}.





End Samples.

(* ===================================================================== *)
(** ** Facts about computations                                          *)
(* ===================================================================== *)

Unset Implicit Arguments.

Lemma bind_Ok {A B} (m : M A) (k : A -> M B) s s' a :
  m s = (s', Ok a) -> bind m k s = k a s'.
Proof. intros H. unfold bind. now rewrite H. Qed.

Lemma bind_Raise {A B} (m : M A) (k : A -> M B) s s' e :
  m s = (s', Raise e) -> bind m k s = (s', Raise e).
Proof. intros H. unfold bind. now rewrite H. Qed.

Lemma uniform_ret {A} (a : A) : uniform (ret a).
Proof. exists [], (Ok a). intros s. unfold ret. now rewrite app_nil_r. Qed.

Lemma uniform_lift {A} (r : result A) : uniform (lift r).
Proof. exists [], r. intros s. unfold lift. now rewrite app_nil_r. Qed.

Lemma uniform_emit e : uniform (emit e).
Proof. exists [e], (Ok tt). reflexivity. Qed.

Lemma uniform_bind {A B} (m : M A) (k : A -> M B) :
  uniform m -> (forall a, uniform (k a)) -> uniform (bind m k).
Proof.
  intros (evs & r & Hm) Hk. destruct r as [a | e].
  - destruct (Hk a) as (evs' & r' & Hka).
    exists (evs ++ evs'), r'. intros s.
    rewrite (bind_Ok m k _ _ _ (Hm s)), Hka. now rewrite app_assoc.
  - exists evs, (Raise e). intros s. now rewrite (bind_Raise m k _ _ _ (Hm s)).
Qed.

Lemma uniform_list_comp {A B} (f : A -> M B) (l : list A) :
  (forall x, uniform (f x)) -> uniform (list_comp f l).
Proof.
  intros Hf. induction l as [| x t IH]; simpl.
  - apply uniform_ret.
  - apply uniform_bind; [apply Hf |]. intros y.
    apply uniform_bind; [exact IH |]. intros ys. apply uniform_ret.
Qed.

Lemma uniform_for_each {A S} (body : A -> S -> M S) (l : list A) :
  (forall x acc, uniform (body x acc)) -> forall acc, uniform (for_each l body acc).
Proof.
  intros Hb. induction l as [| x t IH]; intros acc; simpl.
  - apply uniform_ret.
  - apply uniform_bind; [apply Hb | exact IH].
Qed.

(** Two runs of a uniform computation, from any two logs, agree. *)
Lemma uniform_runs_agree {A} (m : M A) :
  uniform m ->
  forall s1 s2,
    snd (m s1) = snd (m s2) /\
    exists evs, fst (m s1) = s1 ++ evs /\ fst (m s2) = s2 ++ evs.
Proof.
  intros (evs & r & H) s1 s2. rewrite (H s1), (H s2). simpl.
  split; [reflexivity | now exists evs].
Qed.

(** An exception raised by one iteration leaves the loop. *)
Lemma for_each_raises {A S} (body : A -> S -> M S) (l : list A) (x : A) :
  In x l ->
  (forall acc s, is_Raise (snd (body x acc s)) = true) ->
  forall acc s, is_Raise (snd (for_each l body acc s)) = true.
Proof.
  intros Hin Hx. induction l as [| y t IH]; [contradiction |].
  intros acc s. simpl. unfold bind.
  destruct (body y acc s) as [s' [acc' | e]] eqn:Hy; [| reflexivity].
  destruct Hin as [-> | Hin].
  - specialize (Hx acc s). rewrite Hy in Hx. discriminate.
  - now apply IH.
Qed.

(* ===================================================================== *)
(** ** Facts about the array operations                                  *)
(* ===================================================================== *)

Lemma py_index_head {A} (x : A) (l : list A) : py_index (x :: l) 0 = Ok x.
Proof.
  unfold py_index. cbn [length].
  replace (0 <? 0)%Z with false by reflexivity.
  replace ((0 <=? 0)%Z && (0 <? Z.of_nat (S (length l)))%Z) with true; [reflexivity |].
  symmetry. apply andb_true_iff. split; [reflexivity | apply Z.ltb_lt; lia].
Qed.

Lemma py_index_nil {A} (i : Z) : py_index (@nil A) i = Raise IndexError.
Proof.
  unfold py_index. cbn [length Z.of_nat].
  match goal with |- (if ?c then _ else _) = _ => destruct c eqn:E end;
    [| reflexivity].
  apply andb_true_iff in E. destruct E as [E1 E2].
  apply Z.leb_le in E1. apply Z.ltb_lt in E2. lia.
Qed.

Lemma np_full_map {A B} (v : B) (l : list A) :
  np_full (length l) v = map (fun _ => v) l.
Proof. unfold np_full. induction l; simpl; congruence. Qed.

(** Selecting with a mask computed from the rows keeps the rows that
    satisfy the predicate. *)
Lemma mask_select_rows {R A} (P : R -> bool) (F : R -> A) (rows : list R) :
  mask_select (map F rows) (map P rows) = Ok (map F (filter P rows)).
Proof.
  induction rows as [| r t IH]; simpl; [reflexivity |].
  rewrite IH. now destruct (P r).
Qed.

(** Assigning through that mask rewrites exactly the selected rows. *)
Lemma mask_assign_rows {R A} (P : R -> bool) (F H : R -> A) (rows : list R) :
  mask_assign (map F rows) (map P rows) (map H (filter P rows))
  = Ok (map (fun r => if P r then H r else F r) rows).
Proof.
  induction rows as [| r t IH]; simpl; [reflexivity |].
  destruct (P r); simpl; now rewrite IH.
Qed.

Lemma unique_complete (l : list Z) (x : Z) : In x l -> In x (unique l).
Proof.
  induction l as [| y t IH]; simpl; [tauto |].
  intros [-> | Hin]; [now left |].
  destruct (Z.eq_dec x y) as [-> | Hne]; [now left | right].
  apply filter_In. split; [now apply IH |].
  apply negb_true_iff, Z.eqb_neq. exact Hne.
Qed.

(* ===================================================================== *)
(** ** The normalizer, [standardized_flux_]                              *)
(* ===================================================================== *)

Section NormalizerFacts.

Import Utils.

Variable apparent_flux : float -> float -> float -> float -> string -> float * float.

Local Abbreviation flux_of := (Utils.flux_of apparent_flux).
Local Abbreviation standardized_flux_ := (Utils.standardized_flux_ apparent_flux).

(** *** The catalog selection *)

Lemma loc_ztf_name_run (CTAO_blazar : catalog) (name : string) (s : log) :
  loc_ztf_name CTAO_blazar name s =
  (s ++ [CatalogLookup name],
   Ok (filter (fun r => String.eqb (ztf_name r) name) CTAO_blazar)).
Proof. reflexivity. Qed.

Lemma selection_empty (CTAO_blazar : catalog) (name : string) :
  empty (filter (fun r => String.eqb (ztf_name r) name) CTAO_blazar)
  = negb (in_catalog CTAO_blazar name).
Proof.
  unfold in_catalog.
  induction CTAO_blazar as [| c t IH]; simpl; [reflexivity |].
  destruct (String.eqb (ztf_name c) name); simpl; [reflexivity | exact IH].
Qed.

(** *** Lines 38-48 *)

Lemma list_comp_flux (pdf : DataFrame) (s : log) :
  list_comp (call_apparent_flux apparent_flux) pdf s
  = (s ++ map flux_event pdf, Ok (map flux_of pdf)).
Proof.
  revert s. induction pdf as [| r t IH]; intros s; simpl.
  - unfold ret. now rewrite app_nil_r.
  - unfold bind at 1. unfold call_apparent_flux at 1.
    unfold bind at 1. unfold emit, ret at 1.
    unfold bind at 1. rewrite IH. unfold ret.
    now rewrite <- app_assoc.
Qed.

Lemma scaled_fluxes_run (r : row) (rest : DataFrame) (s : log) :
  let pdf := r :: rest in
  scaled_fluxes apparent_flux pdf s
  = (s ++ map flux_event pdf,
     Ok (map (fun e => PrimFloat.mul 1000 (fst (flux_of e))) pdf,
         map (fun e => PrimFloat.mul 1000 (snd (flux_of e))) pdf)).
Proof.
  intros pdf. unfold scaled_fluxes, bind. rewrite list_comp_flux.
  unfold lift, pdf. cbn [map np_transpose np_scale unpack2 fst snd].
  now rewrite !map_map.
Qed.

(** *** The two paths of the function *)

Lemma run_absent (g : globals) (r : row) (rest : DataFrame)
      (CTAO_blazar : catalog) (s : log) :
  in_catalog CTAO_blazar (objectId r) = false ->
  let pdf := r :: rest in
  standardized_flux_ g pdf CTAO_blazar s
  = (s ++ [CatalogLookup (objectId r)],
     Ok (np_full (length pdf) nan, np_full (length pdf) nan)).
Proof.
  intros Habs pdf. unfold Utils.standardized_flux_, pdf.
  cbn [map]. rewrite py_index_head. unfold lift at 1. unfold bind at 1.
  unfold bind at 1. rewrite loc_ztf_name_run.
  rewrite selection_empty, Habs. reflexivity.
Qed.

Lemma run_present (g : globals) (r : row) (rest : DataFrame)
      (CTAO_blazar : catalog) (s : log) :
  in_catalog CTAO_blazar (objectId r) = true ->
  let pdf := r :: rest in
  standardized_flux_ g pdf CTAO_blazar s
  = for_each (unique (map cfid pdf))
      (filter_body g pdf
         (map (fun e => PrimFloat.mul 1000 (fst (flux_of e))) pdf)
         (map (fun e => PrimFloat.mul 1000 (snd (flux_of e))) pdf))
      (np_full (length pdf) nan, np_full (length pdf) nan)
      (s ++ CatalogLookup (objectId r) :: map flux_event pdf).
Proof.
  intros Hin pdf. unfold Utils.standardized_flux_, pdf.
  cbn [map]. rewrite py_index_head. unfold lift at 1. unfold bind at 1.
  unfold bind at 1. rewrite loc_ztf_name_run.
  rewrite selection_empty, Hin. cbn [negb].
  unfold bind at 1. rewrite scaled_fluxes_run.
  rewrite <- app_assoc. reflexivity.
Qed.

(** With [precomputed_data] unbound, the first iteration of the loop
    over the filters raises [NameError]. *)
Lemma run_present_unbound (r : row) (rest : DataFrame)
      (CTAO_blazar : catalog) (s : log) :
  in_catalog CTAO_blazar (objectId r) = true ->
  let pdf := r :: rest in
  standardized_flux_ module_globals pdf CTAO_blazar s
  = (s ++ CatalogLookup (objectId r) :: map flux_event pdf, Raise NameError).
Proof.
  intros Hin pdf. unfold pdf. rewrite run_present by exact Hin.
  cbn [map unique for_each]. reflexivity.
Qed.

(** *** Lines 50-54, were [precomputed_data] bound to a table *)

Lemma unique_sound (l : list Z) (x : Z) : In x (unique l) -> In x l.
Proof.
  induction l as [| y t IH]; simpl; [tauto |].
  intros [-> | Hin]; [now left | right].
  apply filter_In in Hin. now apply IH.
Qed.

Lemma median_of_Ok (medians : list float) (fid : Z) (m : float) :
  py_index medians (fid - 1) = Ok m -> median_of medians fid = m.
Proof. intros H. unfold median_of. now rewrite H. Qed.

Lemma filter_body_run (g : globals) (t : catalog) (medians : list float)
      (pdf : DataFrame) (F S A B : row -> float) (fid : Z) (m : float) (s : log) :
  precomputed_data g = Some t ->
  py_index (map array_of_medians t) 0 = Ok medians ->
  py_index medians (fid - 1) = Ok m ->
  filter_body g pdf (map F pdf) (map S pdf) fid (map A pdf, map B pdf) s
  = (s, Ok (map (fun e => if (cfid e =? fid)%Z
                          then PrimFloat.div (F e) m else A e) pdf,
            map (fun e => if (cfid e =? fid)%Z
                          then PrimFloat.div (S e) m else B e) pdf)).
Proof.
  intros Hg Ht Hm. unfold filter_body, global_precomputed_data.
  rewrite Hg. unfold lift, bind. rewrite Ht, Hm.
  rewrite !mask_select_rows, !map_map.
  rewrite (mask_assign_rows (fun r => (cfid r =? fid)%Z) A
             (fun e => PrimFloat.div (F e) m) pdf).
  rewrite (mask_assign_rows (fun r => (cfid r =? fid)%Z) B
             (fun e => PrimFloat.div (S e) m) pdf).
  reflexivity.
Qed.

Lemma filter_loop_run (g : globals) (t : catalog) (medians : list float)
      (pdf : DataFrame) (F S : row -> float) (fids : list Z) :
  precomputed_data g = Some t ->
  py_index (map array_of_medians t) 0 = Ok medians ->
  (forall fid, In fid fids -> exists m, py_index medians (fid - 1) = Ok m) ->
  forall (A B : row -> float) (s : log),
    for_each fids (filter_body g pdf (map F pdf) (map S pdf))
             (map A pdf, map B pdf) s
    = (s, Ok (map (fun e => if existsb (Z.eqb (cfid e)) fids
                            then PrimFloat.div (F e) (median_of medians (cfid e))
                            else A e) pdf,
              map (fun e => if existsb (Z.eqb (cfid e)) fids
                            then PrimFloat.div (S e) (median_of medians (cfid e))
                            else B e) pdf)).
Proof.
  intros Hg Ht. induction fids as [| fid fids IH]; intros Hall A B s.
  - reflexivity.
  - destruct (Hall fid (or_introl eq_refl)) as [m Hm].
    cbn [for_each]. unfold bind.
    rewrite (filter_body_run g t medians pdf F S A B fid m s Hg Ht Hm).
    rewrite IH by (intros f Hf; apply Hall; now right).
    do 2 f_equal. f_equal; apply map_ext; intros e; cbn [existsb];
      destruct (Z.eqb_spec (cfid e) fid) as [-> | _]; cbn [orb];
      try rewrite (median_of_Ok _ _ _ Hm);
      now destruct (existsb (Z.eqb _) fids).
Qed.

(** X13. Lines 50-54 divide every scaled flux and uncertainty by the
    median read, at index [cfid - 1], from the first row of the table
    bound to [precomputed_data], whenever that name is bound and the index
    is in range for every filter of the history. *)
Theorem bound_name_divides (g : globals) (t : catalog) (medians : list float)
        (r : row) (rest : DataFrame) (CTAO_blazar : catalog) (s : log) :
  let pdf := r :: rest in
  in_catalog CTAO_blazar (objectId r) = true ->
  precomputed_data g = Some t ->
  py_index (map array_of_medians t) 0 = Ok medians ->
  (forall e, In e pdf -> exists m, py_index medians (cfid e - 1) = Ok m) ->
  standardized_flux_ g pdf CTAO_blazar s
  = (s ++ CatalogLookup (objectId r) :: map flux_event pdf,
     Ok (map (fun e => PrimFloat.div (PrimFloat.mul 1000 (fst (flux_of e)))
                                     (median_of medians (cfid e))) pdf,
         map (fun e => PrimFloat.div (PrimFloat.mul 1000 (snd (flux_of e)))
                                     (median_of medians (cfid e))) pdf)).
Proof.
  intros pdf Hin Hg Ht Hall. unfold pdf. rewrite run_present by exact Hin.
  fold pdf. rewrite !np_full_map.
  rewrite (filter_loop_run g t medians pdf _ _ _ Hg Ht).
  - do 2 f_equal. f_equal; apply map_ext_in; intros e He;
      replace (existsb (Z.eqb (cfid e)) (unique (map cfid pdf))) with true;
      try reflexivity; symmetry; apply existsb_exists; exists (cfid e);
      (split; [apply unique_complete, in_map, He | apply Z.eqb_refl]).
  - intros fid Hfid. apply unique_sound, in_map_iff in Hfid.
    destruct Hfid as (e & <- & He). now apply Hall.
Qed.

(** *** No state is carried from one invocation to the next *)

Lemma loc_ztf_name_uniform (CTAO_blazar : catalog) (name : string) :
  uniform (loc_ztf_name CTAO_blazar name).
Proof.
  unfold loc_ztf_name. apply uniform_bind; [apply uniform_emit |].
  intros _. apply uniform_ret.
Qed.

Lemma scaled_fluxes_uniform (pdf : DataFrame) :
  uniform (scaled_fluxes apparent_flux pdf).
Proof.
  unfold scaled_fluxes. apply uniform_bind.
  - apply uniform_list_comp. intros r. unfold call_apparent_flux.
    apply uniform_bind; [apply uniform_emit |]. intros _. apply uniform_ret.
  - intros fluxes. apply uniform_lift.
Qed.

Lemma filter_body_uniform (g : globals) (pdf : DataFrame)
      (flux_dc sigma_flux_dc : list float) (fid : Z)
      (acc : list float * list float) :
  uniform (filter_body g pdf flux_dc sigma_flux_dc fid acc).
Proof.
  destruct acc as [std_flux sigma_std_flux]. unfold filter_body.
  repeat (apply uniform_bind; [apply uniform_lift | intros ?]).
  apply uniform_ret.
Qed.

Lemma standardized_flux__uniform (g : globals) (pdf : DataFrame)
      (CTAO_blazar : catalog) :
  uniform (standardized_flux_ g pdf CTAO_blazar).
Proof.
  unfold Utils.standardized_flux_.
  apply uniform_bind; [apply uniform_lift |]. intros name.
  apply uniform_bind; [apply loc_ztf_name_uniform |]. intros CTAO_data.
  destruct (negb (empty CTAO_data)); [| apply uniform_ret].
  apply uniform_bind; [apply scaled_fluxes_uniform |].
  intros [flux_dc sigma_flux_dc].
  apply uniform_for_each. intros fid acc. apply filter_body_uniform.
Qed.

(** *** The claims on [standardized_flux_] *)

(** C2. For an alert whose objectId (the one of its first row) has no row
    in the catalog, the normalizer returns, without raising, two sequences
    as long as the history whose every value is NaN; the only collaborator
    call it makes is the catalog selection, so the flux conversion
    primitive is never invoked. *)
Theorem absent_objectId_returns_nan (g : globals) (r : row) (rest : DataFrame)
        (CTAO_blazar : catalog) (s : log) :
  in_catalog CTAO_blazar (objectId r) = false ->
  let pdf := r :: rest in
  exists std_flux sigma_std_flux,
    standardized_flux_ g pdf CTAO_blazar s
    = (s ++ [CatalogLookup (objectId r)], Ok (std_flux, sigma_std_flux))
    /\ length std_flux = length pdf
    /\ length sigma_std_flux = length pdf
    /\ Forall (fun v => v = nan) std_flux
    /\ Forall (fun v => v = nan) sigma_std_flux.
Proof.
  intros Habs pdf.
  exists (np_full (length pdf) nan), (np_full (length pdf) nan).
  split; [exact (run_absent g r rest CTAO_blazar s Habs) |].
  unfold np_full. rewrite repeat_length.
  repeat split; apply Forall_forall; intros v Hv;
    now apply repeat_spec in Hv.
Qed.

(** C3, as the code has it. For an alert with no epoch the normalizer
    raises [IndexError] when it reads the objectId of the first row; it
    has then made no catalog selection and no flux conversion, and it
    returns no sequences. *)
Theorem empty_history_raises_IndexError (g : globals) (CTAO_blazar : catalog)
        (s : log) :
  standardized_flux_ g [] CTAO_blazar s = (s, Raise IndexError).
Proof. reflexivity. Qed.

(** C4. For an alert whose objectId is in the catalog, the arrays the
    loop over the filters divides ([flux_dc] and [sigma_flux_dc]) hold,
    for every epoch, the flux and the uncertainty returned by the
    conversion primitive multiplied by the literal 1000, whatever the
    catalog, the global namespace and the history are. *)
Theorem fluxes_scaled_by_1000 (g : globals) (r : row) (rest : DataFrame)
        (CTAO_blazar : catalog) (s : log) :
  in_catalog CTAO_blazar (objectId r) = true ->
  let pdf := r :: rest in
  let s' := s ++ CatalogLookup (objectId r) :: map flux_event pdf in
  exists flux_dc sigma_flux_dc,
    scaled_fluxes apparent_flux pdf (s ++ [CatalogLookup (objectId r)])
    = (s', Ok (flux_dc, sigma_flux_dc))
    /\ (forall i e, nth_error pdf i = Some e ->
          nth_error flux_dc i = Some (PrimFloat.mul 1000 (fst (flux_of e)))
          /\ nth_error sigma_flux_dc i
             = Some (PrimFloat.mul 1000 (snd (flux_of e))))
    /\ standardized_flux_ g pdf CTAO_blazar s
       = for_each (unique (map cfid pdf))
           (filter_body g pdf flux_dc sigma_flux_dc)
           (np_full (length pdf) nan, np_full (length pdf) nan) s'.
Proof.
  intros Hin pdf s'.
  exists (map (fun e => PrimFloat.mul 1000 (fst (flux_of e))) pdf),
         (map (fun e => PrimFloat.mul 1000 (snd (flux_of e))) pdf).
  split; [| split].
  - unfold pdf. rewrite scaled_fluxes_run. unfold s'.
    now rewrite <- app_assoc.
  - intros i e Hi. rewrite !nth_error_map, Hi. now split.
  - exact (run_present g r rest CTAO_blazar s Hin).
Qed.

(** Under one binding of [precomputed_data], two runs on the same
    history and the same catalog end alike whatever was logged before
    each of them. *)
Lemma runs_agree_under_one_binding (g : globals) (pdf : DataFrame)
        (CTAO_blazar : catalog) (s1 s2 : log) :
  snd (standardized_flux_ g pdf CTAO_blazar s1)
  = snd (standardized_flux_ g pdf CTAO_blazar s2)
  /\ exists evs,
       fst (standardized_flux_ g pdf CTAO_blazar s1) = s1 ++ evs
       /\ fst (standardized_flux_ g pdf CTAO_blazar s2) = s2 ++ evs.
Proof. apply uniform_runs_agree, standardized_flux__uniform. Qed.

End NormalizerFacts.

(* ===================================================================== *)
(** ** The dispatcher, [standardized_flux]                               *)
(* ===================================================================== *)

Section DispatcherFacts.

Import Processor.

Variable apparent_flux : float -> float -> float -> float -> string -> float * float.

Local Abbreviation standardized_flux := (Processor.standardized_flux apparent_flux).

Lemma py_index_In {A} (l : list A) (i : Z) (x : A) :
  py_index l i = Ok x -> In x l.
Proof.
  unfold py_index.
  destruct (_ && _); [| discriminate].
  destruct (nth_error l _) eqn:E; [| discriminate].
  intros [= <-]. eapply nth_error_In, E.
Qed.

(** With distinct keys, the rows selected for [candid a] start with [a]. *)
Lemma first_of_candid (pdf : batch) (a : alert) :
  distinct (map candid pdf) = true ->
  In a pdf ->
  py_index (filter (fun x => (candid x =? candid a)%Z) pdf) 0 = Ok a.
Proof.
  induction pdf as [| b t IH]; [contradiction |].
  cbn [map distinct]. intros Hd Hin.
  apply andb_true_iff in Hd. destruct Hd as [Hb Ht].
  destruct Hin as [-> | Hin].
  - cbn [filter]. rewrite Z.eqb_refl. apply py_index_head.
  - cbn [filter]. destruct (Z.eqb_spec (candid b) (candid a)) as [Heq | _].
    + apply negb_true_iff in Hb.
      assert (existsb (Z.eqb (candid b)) (map candid t) = true); [| congruence].
      apply existsb_exists. exists (candid a). split.
      * now apply in_map.
      * now apply Z.eqb_eq.
    + now apply IH.
Qed.

Lemma pd_DataFrame_ragged (a : alert) :
  all_same (array_lengths a) = false -> pd_DataFrame a = Raise ValueError.
Proof. intros H. unfold pd_DataFrame. now rewrite H. Qed.

(** The iteration for a row with arrays of different lengths stops at
    the construction of the frame, before the normalizer is called. *)
Lemma dispatch_body_ragged (g : Utils.globals) (CTAO_blazar : Utils.catalog)
      (pdf : batch) (a : alert) (out : list container) (s : log) :
  py_index (filter (fun x => (candid x =? candid a)%Z) pdf) 0 = Ok a ->
  all_same (array_lengths a) = false ->
  dispatch_body apparent_flux g CTAO_blazar pdf (candid a) out s
  = (s, Raise ValueError).
Proof.
  intros Hfirst Hragged. unfold dispatch_body, bind, lift.
  now rewrite Hfirst, (pd_DataFrame_ragged a Hragged).
Qed.

(** C9. When a row of the batch (keyed by distinct [candid] values) has
    history arrays that are not all of one length, building its frame
    raises [ValueError] and the call of the dispatcher ends with an
    exception: no sequence, truncated or padded, is returned. *)
Theorem mismatched_lengths_raise (g : Utils.globals) (CTAO_parquet : Utils.catalog)
        (pdf : batch) (a : alert) (s : log) :
  distinct (map candid pdf) = true ->
  In a pdf ->
  all_same (array_lengths a) = false ->
  pd_DataFrame a = Raise ValueError
  /\ is_Raise (snd (standardized_flux g CTAO_parquet pdf s)) = true.
Proof.
  intros Hd Hin Hragged. split; [now apply pd_DataFrame_ragged |].
  unfold Processor.standardized_flux.
  apply for_each_raises with (x := candid a); [now apply in_map |].
  intros out s0.
  now rewrite (dispatch_body_ragged g CTAO_parquet pdf a out s0
                 (first_of_candid pdf a Hd Hin) Hragged).
Qed.

End DispatcherFacts.

(* ===================================================================== *)
(** ** The lookup key                                                    *)
(* ===================================================================== *)

Section LookupKey.

Import Utils.

Variable apparent_flux : float -> float -> float -> float -> string -> float * float.

Lemma for_each_ext {A S} (body body' : A -> S -> M S) (l : list A) :
  (forall x acc s, body x acc s = body' x acc s) ->
  forall acc s, for_each l body acc s = for_each l body' acc s.
Proof.
  intros Hb. induction l as [| x t IH]; intros acc s; [reflexivity |].
  cbn [for_each]. unfold bind. rewrite Hb.
  destruct (body' x acc s) as [s' [acc' | e]]; [apply IH | reflexivity].
Qed.

(** The loop body reads the history through its [cfid] column only. *)
Lemma filter_body_cfid (g : globals) (pdf pdf' : DataFrame)
      (flux_dc sigma_flux_dc : list float) (fid : Z)
      (acc : list float * list float) (s : log) :
  map cfid pdf' = map cfid pdf ->
  filter_body g pdf' flux_dc sigma_flux_dc fid acc s
  = filter_body g pdf flux_dc sigma_flux_dc fid acc s.
Proof.
  intros H. destruct acc as [std_flux sigma_std_flux]. unfold filter_body.
  replace (map (fun r => (cfid r =? fid)%Z) pdf')
    with (map (fun c => (c =? fid)%Z) (map cfid pdf'))
    by (now rewrite map_map).
  replace (map (fun r => (cfid r =? fid)%Z) pdf)
    with (map (fun c => (c =? fid)%Z) (map cfid pdf))
    by (now rewrite map_map).
  now rewrite H.
Qed.

(** X14. The objectId of every row after the first can be replaced by
    any other without changing the calls made or the outcome: the key of
    the catalog selection is the objectId of the first row. *)
Lemma later_objectIds_ignored (relabel : row -> string) (g : globals)
      (r : row) (rest : DataFrame) (CTAO_blazar : catalog) (s : log) :
  standardized_flux_ apparent_flux g
    (r :: map (fun e => with_objectId (relabel e) e) rest) CTAO_blazar s
  = standardized_flux_ apparent_flux g (r :: rest) CTAO_blazar s.
Proof.
  set (W := fun e => with_objectId (relabel e) e).
  assert (Hcfid : map cfid (r :: map W rest) = map cfid (r :: rest)).
  { cbn [map]. now rewrite map_map. }
  assert (Hlen : length (r :: map W rest) = length (r :: rest)).
  { cbn [length]. now rewrite length_map. }
  destruct (in_catalog CTAO_blazar (objectId r)) eqn:Hin.
  - rewrite !run_present by exact Hin.
    rewrite Hcfid, Hlen. cbn [map]. rewrite !map_map.
    apply for_each_ext. intros fid acc s0.
    apply filter_body_cfid. exact Hcfid.
  - rewrite !run_absent by exact Hin. now rewrite Hlen.
Qed.

End LookupKey.

(* ===================================================================== *)
(** ** Scenarios                                                         *)
(* ===================================================================== *)

Section Scenarios.

Import Utils Samples.
Local Open Scope string_scope.

(** C1, at an alert with one epoch in filter 1 whose objectId has a
    catalog row with median 2 for that filter: the run ends with
    [NameError] at the first reading of the median, after the catalog
    selection and the flux conversion; no median of the matched row is
    fetched and no value is written. *)
Theorem matched_median_not_fetched :
  standardized_flux_ sample_flux module_globals one_epoch monitored []
  = ([CatalogLookup "ZTF18aaaaaaa"; FluxCall 4 0.5 0 0 "t"], Raise NameError).
Proof. reflexivity. Qed.

(** C3, as stated, fails: with no epoch the outcome is not a pair of
    empty sequences. *)
Lemma empty_history_no_empty_pair :
  snd (standardized_flux_ sample_flux module_globals [] monitored [])
  <> Ok ([], []).
Proof. cbn. discriminate. Qed.

(** C8, at an alert with one epoch in each of the filters 1 and 2, both
    with a median in the matched row: the run ends with [NameError] and
    returns no sequence of the length of the history. *)
Theorem two_filters_no_output :
  standardized_flux_ sample_flux module_globals two_filters monitored []
  = ([CatalogLookup "ZTF18aaaaaaa"; FluxCall 4 0.5 0 0 "t";
      FluxCall 6 0.25 0 0 "t"],
     Raise NameError).
Proof. reflexivity. Qed.

(** C10, at a catalog with two rows for the objectId of the alert: the
    selection is not empty and the run ends with [NameError]; the medians
    of the first match are not used. *)
Theorem first_match_fields_not_used :
  loc_ztf_name monitored_twice "ZTF18aaaaaaa" [] 
  = ([CatalogLookup "ZTF18aaaaaaa"], Ok monitored_twice)
  /\ snd (standardized_flux_ sample_flux module_globals one_epoch
                             monitored_twice [])
     = Raise NameError.
Proof. split; reflexivity. Qed.

(** *** Lines 50-54 under a bound name *)

(** Were [precomputed_data] bound to the table of monitored sources, the
    two epochs would be divided by the medians of their own filters:
    [1000 * 4 / 2] and [1000 * 6 / 4], [1000 * 0.5 / 2] and
    [1000 * 0.25 / 4]. *)
Example bound_name_two_filters :
  snd (standardized_flux_ sample_flux {| precomputed_data := Some monitored |}
                          two_filters monitored [])
  = Ok ([2000%float; 1500%float], [250%float; 62.5%float]).
Proof. reflexivity. Qed.

(** There the medians are those of the bound table, whatever the row
    matched for the alert holds. *)
Example bound_name_ignores_match :
  snd (standardized_flux_ sample_flux {| precomputed_data := Some monitored |}
                          two_filters monitored_short [])
  = Ok ([2000%float; 1500%float], [250%float; 62.5%float]).
Proof. reflexivity. Qed.

(** Division of the scaled flux is linear in the flux up to rounding
    only: with a flux of one tenth, a median of 1 and k = 3, the quotient
    of the tripled flux is not three times the quotient of the flux. *)
Example bound_name_scaling_rounds :
  let g := {| precomputed_data :=
                Some [ {| fgl_name := "3FGL J0001"; ztf_name := "ZTF18aaaaaaa";
                          array_of_medians := [1%float] |} ] |} in
  let pdf := [ epoch "ZTF18aaaaaaa" 0x1.999999999999ap-4 0.5 1 ] in
  snd (standardized_flux_ sample_flux g pdf monitored [])
  = Ok ([100%float], [500%float])
  /\ snd (standardized_flux_ (scaled_by 3 sample_flux) g pdf monitored [])
     = Ok ([0x1.2c00000000001p+8%float], [1500%float])
  /\ PrimFloat.mul 3 100 = 300%float
  /\ PrimFloat.ltb 300 0x1.2c00000000001p+8 = true.
Proof. repeat split. Qed.

(** *** The theorems at concrete alerts *)

Lemma absent_objectId_returns_nan_witness :
  in_catalog monitored "ZTF19bbbbbbb" = false
  /\ exists std_flux sigma_std_flux,
       standardized_flux_ sample_flux module_globals unmonitored monitored []
       = ([CatalogLookup "ZTF19bbbbbbb"], Ok (std_flux, sigma_std_flux))
       /\ length std_flux = 2
       /\ length sigma_std_flux = 2
       /\ Forall (fun v => v = nan) std_flux
       /\ Forall (fun v => v = nan) sigma_std_flux.
Proof.
  split; [reflexivity |].
  apply (absent_objectId_returns_nan sample_flux module_globals
           (epoch "ZTF19bbbbbbb" 4 0.5 1) [epoch "ZTF19bbbbbbb" 6 0.25 2]
           monitored []).
  reflexivity.
Defined.

Lemma fluxes_scaled_by_1000_witness :
  in_catalog monitored "ZTF18aaaaaaa" = true
  /\ exists flux_dc sigma_flux_dc,
       scaled_fluxes sample_flux two_filters [CatalogLookup "ZTF18aaaaaaa"]
       = (CatalogLookup "ZTF18aaaaaaa" :: map flux_event two_filters,
          Ok (flux_dc, sigma_flux_dc))
       /\ (forall i e, nth_error two_filters i = Some e ->
             nth_error flux_dc i
             = Some (PrimFloat.mul 1000 (fst (flux_of sample_flux e)))
             /\ nth_error sigma_flux_dc i
                = Some (PrimFloat.mul 1000 (snd (flux_of sample_flux e))))
       /\ standardized_flux_ sample_flux module_globals two_filters monitored []
          = for_each (unique (map cfid two_filters))
              (filter_body module_globals two_filters flux_dc sigma_flux_dc)
              (np_full 2 nan, np_full 2 nan)
              (CatalogLookup "ZTF18aaaaaaa" :: map flux_event two_filters).
Proof.
  split; [reflexivity |].
  apply (fluxes_scaled_by_1000 sample_flux module_globals
           (epoch "ZTF18aaaaaaa" 4 0.5 1) [epoch "ZTF18aaaaaaa" 6 0.25 2]
           monitored []).
  reflexivity.
Defined.

Lemma mismatched_lengths_raise_witness :
  Processor.all_same (Processor.array_lengths ragged) = false
  /\ Processor.pd_DataFrame ragged = Raise ValueError
  /\ is_Raise (snd (Processor.standardized_flux sample_flux module_globals
                      monitored [regular; ragged] []))
     = true.
Proof.
  split; [reflexivity |].
  apply (mismatched_lengths_raise sample_flux module_globals monitored
           [regular; ragged] ragged []).
  - reflexivity.
  - simpl. right. left. reflexivity.
  - reflexivity.
Defined.

End Scenarios.

(* ===================================================================== *)
(** ** More on the normalizer                                            *)
(* ===================================================================== *)

Section NormalizerCoverage.

Import Utils.

Variable apparent_flux : float -> float -> float -> float -> string -> float * float.

Local Abbreviation standardized_flux_ := (Utils.standardized_flux_ apparent_flux).

(** With [precomputed_data] unbound, a run that returns went through the
    branch of line 56. *)
Lemma Ok_run_inversion (pdf : DataFrame) (CTAO_blazar : catalog)
      (s s' : log) (std_flux sigma_std_flux : list float) :
  standardized_flux_ module_globals pdf CTAO_blazar s
  = (s', Ok (std_flux, sigma_std_flux)) ->
  exists r rest,
    pdf = r :: rest
    /\ in_catalog CTAO_blazar (objectId r) = false
    /\ s' = s ++ [CatalogLookup (objectId r)]
    /\ std_flux = np_full (length pdf) nan
    /\ sigma_std_flux = np_full (length pdf) nan.
Proof.
  destruct pdf as [| r rest].
  - cbn. discriminate.
  - destruct (in_catalog CTAO_blazar (objectId r)) eqn:Hin.
    + rewrite (run_present_unbound apparent_flux r rest CTAO_blazar s Hin).
      discriminate.
    + rewrite (run_absent apparent_flux module_globals r rest CTAO_blazar s Hin).
      intros [= <- <- <-]. exists r, rest. repeat split; assumption.
Qed.

Lemma np_full_all {A} (n : nat) (v : A) : Forall (fun x => x = v) (np_full n v).
Proof.
  unfold np_full. apply Forall_forall. intros x Hx.
  now apply repeat_spec in Hx.
Qed.

(** X1. As shipped ([precomputed_data] unbound), whenever the normalizer
    returns, both sequences have the length of the history and hold
    nothing but NaN, and the objectId of the first row has no row in the
    catalog: no call ever returns a standardized value. *)
Theorem returns_only_nan (pdf : DataFrame) (CTAO_blazar : catalog)
        (s s' : log) (std_flux sigma_std_flux : list float) :
  standardized_flux_ module_globals pdf CTAO_blazar s
  = (s', Ok (std_flux, sigma_std_flux)) ->
  length std_flux = length pdf
  /\ length sigma_std_flux = length pdf
  /\ Forall (fun v => v = nan) std_flux
  /\ Forall (fun v => v = nan) sigma_std_flux
  /\ exists r rest, pdf = r :: rest /\ in_catalog CTAO_blazar (objectId r) = false.
Proof.
  intros Hrun. apply Ok_run_inversion in Hrun.
  destruct Hrun as (r & rest & Hpdf & Habs & _ & -> & ->).
  unfold np_full at 1 2. rewrite !repeat_length.
  repeat split; try apply np_full_all. now exists r, rest.
Qed.

(** X2. The catalog passed to the normalizer is read for the presence of
    the objectId only: two catalogs that agree on whether the objectId of
    the first row has a row give the same calls and the same outcome,
    whatever medians they hold and whatever [precomputed_data] is. *)
Theorem catalog_read_for_presence_only (g : globals) (r : row)
        (rest : DataFrame) (CTAO_blazar CTAO_blazar' : catalog) (s : log) :
  in_catalog CTAO_blazar (objectId r) = in_catalog CTAO_blazar' (objectId r) ->
  standardized_flux_ g (r :: rest) CTAO_blazar s
  = standardized_flux_ g (r :: rest) CTAO_blazar' s.
Proof.
  intros H. destruct (in_catalog CTAO_blazar (objectId r)) eqn:Hin;
    symmetry in H.
  - now rewrite (run_present apparent_flux g r rest CTAO_blazar s Hin),
                (run_present apparent_flux g r rest CTAO_blazar' s H).
  - now rewrite (run_absent apparent_flux g r rest CTAO_blazar s Hin),
                (run_absent apparent_flux g r rest CTAO_blazar' s H).
Qed.

(** X3. The columns [candid], [cdistnr] and [cjd] of the history are
    never consulted: any other values in them leave the calls made and
    the outcome as they are. *)
Theorem unused_columns_ignored (c : row -> Z) (d j : row -> float)
        (g : globals) (pdf : DataFrame) (CTAO_blazar : catalog) (s : log) :
  standardized_flux_ g (map (fun e => with_unused (c e) (d e) (j e) e) pdf)
                     CTAO_blazar s
  = standardized_flux_ g pdf CTAO_blazar s.
Proof.
  set (W := fun e => with_unused (c e) (d e) (j e) e).
  destruct pdf as [| r rest]; [reflexivity |].
  assert (Hcfid : map cfid (map W (r :: rest)) = map cfid (r :: rest)).
  { now rewrite map_map. }
  assert (Hlen : length (map W (r :: rest)) = length (r :: rest)).
  { now rewrite length_map. }
  destruct (in_catalog CTAO_blazar (objectId r)) eqn:Hin.
  - rewrite (run_present apparent_flux g r rest CTAO_blazar s Hin).
    change (map W (r :: rest)) with (W r :: map W rest).
    rewrite (run_present apparent_flux g (W r) (map W rest) CTAO_blazar s Hin).
    change (W r :: map W rest) with (map W (r :: rest)).
    rewrite Hcfid, Hlen, !map_map.
    apply for_each_ext. intros fid acc s0.
    apply filter_body_cfid. exact Hcfid.
  - rewrite (run_absent apparent_flux g r rest CTAO_blazar s Hin).
    change (map W (r :: rest)) with (W r :: map W rest).
    rewrite (run_absent apparent_flux g (W r) (map W rest) CTAO_blazar s Hin).
    change (W r :: map W rest) with (map W (r :: rest)).
    now rewrite Hlen.
Qed.

(** The loop over the filters calls no collaborator. *)
Lemma filter_body_fst (g : globals) (pdf : DataFrame)
      (flux_dc sigma_flux_dc : list float) (fid : Z)
      (acc : list float * list float) (s : log) :
  fst (filter_body g pdf flux_dc sigma_flux_dc fid acc s) = s.
Proof.
  destruct acc as [std_flux sigma_std_flux].
  unfold filter_body, bind, lift, ret.
  repeat match goal with
         | |- context [match ?x with Ok _ => _ | Raise _ => _ end] => destruct x
         end; reflexivity.
Qed.

Lemma for_each_fst {A S} (body : A -> S -> M S) (l : list A) :
  (forall x acc s, fst (body x acc s) = s) ->
  forall acc s, fst (for_each l body acc s) = s.
Proof.
  intros Hb. induction l as [| x t IH]; intros acc s; [reflexivity |].
  cbn [for_each]. unfold bind. specialize (Hb x acc s).
  destruct (body x acc s) as [s' [acc' | e]]; cbn [fst] in Hb; subst s'.
  - apply IH.
  - reflexivity.
Qed.

(** X4. On a history with a first row, the normalizer makes one catalog
    selection, keyed by the objectId of that row, and then, only if that
    objectId has a row in the catalog, one flux conversion per epoch in
    the order of the rows; it makes no other call, whether it returns or
    raises and whatever [precomputed_data] is. *)
Theorem collaborator_calls (g : globals) (r : row) (rest : DataFrame)
        (CTAO_blazar : catalog) (s : log) :
  fst (standardized_flux_ g (r :: rest) CTAO_blazar s)
  = s ++ CatalogLookup (objectId r)
         :: (if in_catalog CTAO_blazar (objectId r)
             then map flux_event (r :: rest) else []).
Proof.
  destruct (in_catalog CTAO_blazar (objectId r)) eqn:Hin.
  - rewrite (run_present apparent_flux g r rest CTAO_blazar s Hin).
    apply for_each_fst. intros fid acc s0. apply filter_body_fst.
  - now rewrite (run_absent apparent_flux g r rest CTAO_blazar s Hin).
Qed.

End NormalizerCoverage.

(* ===================================================================== *)
(** ** Lines 50-54 under a bound name: indices out of range              *)
(* ===================================================================== *)

Section BoundName.

Import Utils.

Variable apparent_flux : float -> float -> float -> float -> string -> float * float.

Lemma py_index_Raise {A} (l : list A) (i : Z) (e : exn) :
  py_index l i = Raise e -> e = IndexError.
Proof.
  unfold py_index. destruct (_ && _); [| now intros [= <-]].
  destruct (nth_error l _); [discriminate | now intros [= <-]].
Qed.

Lemma filter_body_out_of_range (g : globals) (t : catalog)
      (medians : list float) (pdf : DataFrame)
      (flux_dc sigma_flux_dc : list float) (fid : Z)
      (acc : list float * list float) (s : log) :
  precomputed_data g = Some t ->
  py_index (map array_of_medians t) 0 = Ok medians ->
  is_Raise (py_index medians (fid - 1)) = true ->
  filter_body g pdf flux_dc sigma_flux_dc fid acc s = (s, Raise IndexError).
Proof.
  intros Hg Ht Hm. destruct acc as [std_flux sigma_std_flux].
  unfold filter_body, global_precomputed_data.
  rewrite Hg. unfold lift, bind. rewrite Ht.
  destruct (py_index medians (fid - 1)) as [m | e] eqn:E; [discriminate |].
  now rewrite (py_index_Raise _ _ _ E).
Qed.

Lemma filter_loop_out_of_range (g : globals) (t : catalog)
      (medians : list float) (pdf : DataFrame) (F S : row -> float)
      (fids : list Z) :
  precomputed_data g = Some t ->
  py_index (map array_of_medians t) 0 = Ok medians ->
  existsb (fun fid => is_Raise (py_index medians (fid - 1))) fids = true ->
  forall (A B : row -> float) (s : log),
    for_each fids (filter_body g pdf (map F pdf) (map S pdf))
             (map A pdf, map B pdf) s
    = (s, Raise IndexError).
Proof.
  intros Hg Ht. induction fids as [| fid fids IH]; [discriminate |].
  cbn [existsb]. intros Hex A B s. cbn [for_each]. unfold bind.
  destruct (py_index medians (fid - 1)) as [m | e] eqn:E.
  - rewrite (filter_body_run g t medians pdf F S A B fid m s Hg Ht E).
    apply IH. exact Hex.
  - rewrite (filter_body_out_of_range g t medians pdf _ _ fid _ s Hg Ht);
      [reflexivity | now rewrite E].
Qed.

(** X5. If the name [precomputed_data] is bound to a table whose first
    row holds the array [medians], and the history of an alert found in
    the catalog has an epoch whose index [cfid - 1] is outside the array
    (below [-len] or from [len] on), the normalizer raises [IndexError]
    after the flux conversions; it writes no NaN for that epoch. *)
Theorem bound_name_out_of_range (g : globals) (t : catalog)
        (medians : list float) (r : row) (rest : DataFrame)
        (CTAO_blazar : catalog) (s : log) (e : row) :
  let pdf := r :: rest in
  in_catalog CTAO_blazar (objectId r) = true ->
  precomputed_data g = Some t ->
  py_index (map array_of_medians t) 0 = Ok medians ->
  In e pdf ->
  is_Raise (py_index medians (cfid e - 1)) = true ->
  standardized_flux_ apparent_flux g pdf CTAO_blazar s
  = (s ++ CatalogLookup (objectId r) :: map flux_event pdf, Raise IndexError).
Proof.
  intros pdf Hin Hg Ht He Hout. unfold pdf.
  rewrite (run_present apparent_flux g r rest CTAO_blazar s Hin).
  fold pdf. rewrite !np_full_map.
  apply (filter_loop_out_of_range g t medians pdf _ _ _ Hg Ht).
  apply existsb_exists. exists (cfid e). split; [| exact Hout].
  apply unique_complete, in_map, He.
Qed.

End BoundName.

(* ===================================================================== *)
(** ** More on the dispatcher                                            *)
(* ===================================================================== *)

Section DispatcherCoverage.

Import Processor.

Variable apparent_flux : float -> float -> float -> float -> string -> float * float.

Local Abbreviation standardized_flux := (Processor.standardized_flux apparent_flux).

(** *** The frame of lines 147-160 *)

Lemma all_same_lengths (a : alert) :
  all_same (array_lengths a) = true ->
  length (cdistnr a) = epochs a
  /\ length (cmagpsf a) = epochs a
  /\ length (csigmapsf a) = epochs a
  /\ length (cmagnr a) = epochs a
  /\ length (csigmagnr a) = epochs a
  /\ length (cisdiffpos a) = epochs a
  /\ length (cfid a) = epochs a
  /\ length (cjd a) = epochs a.
Proof.
  unfold all_same, array_lengths, epochs. cbn [forallb]. intros H.
  repeat (apply andb_true_iff in H; destruct H as [?H H]).
  repeat match goal with
         | E : Nat.eqb _ _ = true |- _ => apply Nat.eqb_eq in E
         end.
  repeat split; congruence.
Qed.

Lemma frame_rows_columns (c : Z) (o : string) (n : nat) :
  forall d m s mr sr p f j,
    length d = n -> length m = n -> length s = n -> length mr = n ->
    length sr = n -> length p = n -> length f = n -> length j = n ->
    let df := frame_rows c o d m s mr sr p f j in
    length df = n
    /\ map Utils.candid df = repeat c n
    /\ map Utils.objectId df = repeat o n
    /\ map Utils.cdistnr df = d
    /\ map Utils.cmagpsf df = m
    /\ map Utils.csigmapsf df = s
    /\ map Utils.cmagnr df = mr
    /\ map Utils.csigmagnr df = sr
    /\ map Utils.cisdiffpos df = p
    /\ map Utils.cfid df = f
    /\ map Utils.cjd df = j.
Proof.
  induction n as [| n IH]; intros d m s mr sr p f j Hd Hm Hs Hmr Hsr Hp Hf Hj;
    destruct d, m, s, mr, sr, p, f, j; try discriminate.
  - cbn. repeat split.
  - cbn in Hd, Hm, Hs, Hmr, Hsr, Hp, Hf, Hj.
    injection Hd as Hd. injection Hm as Hm. injection Hs as Hs.
    injection Hmr as Hmr. injection Hsr as Hsr. injection Hp as Hp.
    injection Hf as Hf. injection Hj as Hj.
    destruct (IH _ _ _ _ _ _ _ _ Hd Hm Hs Hmr Hsr Hp Hf Hj)
      as (H0 & H1 & H2 & H3 & H4 & H5 & H6 & H7 & H8 & H9 & H10).
    cbn [frame_rows map length repeat Utils.candid Utils.objectId
         Utils.cdistnr Utils.cmagpsf Utils.csigmapsf Utils.cmagnr
         Utils.csigmagnr Utils.cisdiffpos Utils.cfid Utils.cjd].
    repeat split; congruence.
Qed.

(** X6. When the eight history arrays of a batch row have one length,
    the frame built for it has one row per epoch; its history columns
    are the arrays, unchanged and in order, and its [candid] and
    [objectId] columns repeat the scalars of the batch row. *)
Theorem frame_columns (a : alert) :
  all_same (array_lengths a) = true ->
  exists df,
    pd_DataFrame a = Ok df
    /\ length df = epochs a
    /\ map Utils.candid df = repeat (candid a) (epochs a)
    /\ map Utils.objectId df = repeat (objectId a) (epochs a)
    /\ map Utils.cdistnr df = cdistnr a
    /\ map Utils.cmagpsf df = cmagpsf a
    /\ map Utils.csigmapsf df = csigmapsf a
    /\ map Utils.cmagnr df = cmagnr a
    /\ map Utils.csigmagnr df = csigmagnr a
    /\ map Utils.cisdiffpos df = cisdiffpos a
    /\ map Utils.cfid df = cfid a
    /\ map Utils.cjd df = cjd a.
Proof.
  intros Hsame. unfold pd_DataFrame. rewrite Hsame.
  destruct (all_same_lengths a Hsame)
    as (Hd & Hm & Hs & Hmr & Hsr & Hp & Hf & Hj).
  eexists. split; [reflexivity |].
  exact (frame_rows_columns (candid a) (objectId a) (epochs a)
           _ _ _ _ _ _ _ _ Hd Hm Hs Hmr Hsr Hp Hf Hj).
Qed.

Lemma frame_head (a : alert) :
  all_same (array_lengths a) = true ->
  epochs a <> 0 ->
  exists r rest,
    pd_DataFrame a = Ok (r :: rest)
    /\ Utils.objectId r = objectId a
    /\ length (r :: rest) = epochs a.
Proof.
  intros Hsame Hn. unfold pd_DataFrame. rewrite Hsame.
  destruct (all_same_lengths a Hsame)
    as (Hd & Hm & Hs & Hmr & Hsr & Hp & Hf & Hj).
  destruct (frame_rows_columns (candid a) (objectId a) (epochs a)
              _ _ _ _ _ _ _ _ Hd Hm Hs Hmr Hsr Hp Hf Hj)
    as (Hlen & _ & Hobj & _).
  destruct (frame_rows _ _ _ _ _ _ _ _ _ _) as [| r rest].
  - cbn in Hlen. congruence.
  - exists r, rest. split; [reflexivity |]. split; [| exact Hlen].
    rewrite <- Hlen in Hobj. cbn [length repeat map] in Hobj.
    now injection Hobj.
Qed.

Lemma frame_empty (a : alert) :
  all_same (array_lengths a) = true ->
  epochs a = 0 ->
  pd_DataFrame a = Ok [].
Proof.
  intros Hsame Hn. unfold pd_DataFrame. rewrite Hsame.
  destruct (all_same_lengths a Hsame)
    as (Hd & Hm & Hs & Hmr & Hsr & Hp & Hf & Hj).
  destruct (frame_rows_columns (candid a) (objectId a) (epochs a)
              _ _ _ _ _ _ _ _ Hd Hm Hs Hmr Hsr Hp Hf Hj)
    as (Hlen & _).
  rewrite Hn in Hlen. apply length_zero_iff_nil in Hlen. now rewrite Hlen.
Qed.

(** *** One iteration of the loop of lines 145-162 *)

Lemma dispatch_body_passes (g : Utils.globals) (CTAO_blazar : Utils.catalog)
      (pdf : batch) (a : alert) (out : list container) (s : log) :
  py_index (filter (fun x => (candid x =? candid a)%Z) pdf) 0 = Ok a ->
  passes CTAO_blazar a = true ->
  dispatch_body apparent_flux g CTAO_blazar pdf (candid a) out s
  = (s ++ [CatalogLookup (objectId a)], Ok (out ++ [nan_container a])).
Proof.
  intros Hfirst Hp. unfold passes in Hp.
  apply andb_true_iff in Hp. destruct Hp as [Hp Habs].
  apply andb_true_iff in Hp. destruct Hp as [Hsame Hn].
  apply negb_true_iff in Habs. apply negb_true_iff, Nat.eqb_neq in Hn.
  destruct (frame_head a Hsame Hn) as (r & rest & Hdf & Hobj & Hlen).
  unfold dispatch_body, bind, lift. rewrite Hfirst, Hdf.
  rewrite <- Hobj in Habs.
  rewrite (run_absent apparent_flux g r rest CTAO_blazar s Habs).
  unfold ret, nan_container. cbn [fst snd]. now rewrite Hlen, Hobj.
Qed.

Lemma dispatch_body_stops (CTAO_blazar : Utils.catalog)
      (pdf : batch) (a : alert) (out : list container) (s : log) :
  py_index (filter (fun x => (candid x =? candid a)%Z) pdf) 0 = Ok a ->
  passes CTAO_blazar a = false ->
  is_Raise (snd (dispatch_body apparent_flux Utils.module_globals CTAO_blazar
                               pdf (candid a) out s))
  = true.
Proof.
  intros Hfirst Hp. unfold passes in Hp.
  destruct (all_same (array_lengths a)) eqn:Hsame.
  - destruct (Nat.eqb (epochs a) 0) eqn:Hn.
    + apply Nat.eqb_eq in Hn.
      unfold dispatch_body, bind, lift.
      now rewrite Hfirst, (frame_empty a Hsame Hn).
    + apply Nat.eqb_neq in Hn. cbn [andb negb] in Hp.
      apply negb_false_iff in Hp.
      destruct (frame_head a Hsame Hn) as (r & rest & Hdf & Hobj & _).
      unfold dispatch_body, bind, lift. rewrite Hfirst, Hdf.
      rewrite <- Hobj in Hp.
      now rewrite (run_present_unbound apparent_flux r rest CTAO_blazar s Hp).
  - now rewrite (dispatch_body_ragged apparent_flux Utils.module_globals
                   CTAO_blazar pdf a out s Hfirst Hsame).
Qed.

Lemma dispatch_body_Ok (g : Utils.globals) (CTAO_blazar : Utils.catalog)
      (pdf : batch) (c : Z) (out out' : list container) (s s' : log) :
  dispatch_body apparent_flux g CTAO_blazar pdf c out s = (s', Ok out') ->
  exists sub std_flux sigma_std_flux,
    Utils.standardized_flux_ apparent_flux g sub CTAO_blazar s
    = (s', Ok (std_flux, sigma_std_flux))
    /\ out' = out ++ [ {| flux := std_flux; sigma := sigma_std_flux |} ].
Proof.
  unfold dispatch_body, bind, lift.
  destruct (py_index _ 0) as [first |]; [| discriminate].
  destruct (pd_DataFrame first) as [sub |]; [| discriminate].
  destruct (Utils.standardized_flux_ apparent_flux g sub CTAO_blazar s)
    as [s1 [[std_flux sigma_std_flux] | e]] eqn:E; [| discriminate].
  unfold ret. intros [= <- <-]. now exists sub, std_flux, sigma_std_flux.
Qed.

(** *** The whole loop *)

Lemma loop_passes (g : Utils.globals) (CTAO_blazar : Utils.catalog)
      (pdf : batch) :
  distinct (map candid pdf) = true ->
  forall l : list alert,
    (forall a, In a l -> In a pdf /\ passes CTAO_blazar a = true) ->
    forall (out : list container) (s : log),
      for_each (map candid l) (dispatch_body apparent_flux g CTAO_blazar pdf)
               out s
      = (s ++ map (fun a => CatalogLookup (objectId a)) l,
         Ok (out ++ map nan_container l)).
Proof.
  intros Hd. induction l as [| a l IH]; intros Hall out s.
  - cbn. unfold ret. now rewrite !app_nil_r.
  - destruct (Hall a (or_introl eq_refl)) as [Hin Hp].
    cbn [map for_each]. unfold bind.
    rewrite (dispatch_body_passes g CTAO_blazar pdf a out s
               (first_of_candid pdf a Hd Hin) Hp).
    rewrite IH by (intros b Hb; apply Hall; now right).
    now rewrite <- !app_assoc.
Qed.

(** X7. On a batch with distinct [candid] values whose rows all have
    arrays of one length, at least one epoch and an objectId without a
    row in the catalog, the dispatcher returns one entry per row, in the
    order of the batch, holding one NaN per epoch in [flux] and in
    [sigma]; it makes one catalog selection per row and no flux
    conversion. *)
Theorem unmonitored_batch_returns_nan (g : Utils.globals)
        (CTAO_parquet : Utils.catalog) (pdf : batch) (s : log) :
  distinct (map candid pdf) = true ->
  forallb (passes CTAO_parquet) pdf = true ->
  standardized_flux g CTAO_parquet pdf s
  = (s ++ map (fun a => CatalogLookup (objectId a)) pdf,
     Ok (map nan_container pdf)).
Proof.
  intros Hd Hall. unfold Processor.standardized_flux.
  rewrite (loop_passes g CTAO_parquet pdf Hd pdf); [reflexivity |].
  intros a Ha. split; [exact Ha |].
  now apply (proj1 (forallb_forall _ _) Hall).
Qed.

(** X8. As shipped ([precomputed_data] unbound), on a batch with
    distinct [candid] values the dispatcher raises exactly when some row
    has arrays of different lengths, or no epoch, or an objectId with a
    row in the catalog: one such row makes the whole batch fail. *)
Theorem dispatcher_raises_iff (CTAO_parquet : Utils.catalog) (pdf : batch)
        (s : log) :
  distinct (map candid pdf) = true ->
  is_Raise (snd (standardized_flux Utils.module_globals CTAO_parquet pdf s))
  = negb (forallb (passes CTAO_parquet) pdf).
Proof.
  intros Hd. destruct (forallb (passes CTAO_parquet) pdf) eqn:Hall.
  - unfold Processor.standardized_flux.
    rewrite (loop_passes Utils.module_globals CTAO_parquet pdf Hd pdf);
      [reflexivity |].
    intros a Ha. split; [exact Ha |].
    now apply (proj1 (forallb_forall _ _) Hall).
  - assert (Hex : exists a, In a pdf /\ passes CTAO_parquet a = false).
    { clear Hd. induction pdf as [| b t IH]; [discriminate |].
      cbn [forallb] in Hall. destruct (passes CTAO_parquet b) eqn:Hb.
      - destruct (IH Hall) as (a & Ha & Hpa). exists a. split; [now right | exact Hpa].
      - exists b. split; [now left | exact Hb]. }
    destruct Hex as (a & Ha & Hpa). cbn [negb].
    unfold Processor.standardized_flux.
    apply for_each_raises with (x := candid a); [now apply in_map |].
    intros out s0.
    exact (dispatch_body_stops CTAO_parquet pdf a out s0
             (first_of_candid pdf a Hd Ha) Hpa).
Qed.

Lemma for_each_app {A S} (body : A -> S -> M S) (l1 l2 : list A) :
  forall acc s,
    for_each (l1 ++ l2) body acc s
    = bind (for_each l1 body acc) (for_each l2 body) s.
Proof.
  induction l1 as [| x t IH]; intros acc s; [reflexivity |].
  cbn [app for_each]. unfold bind.
  destruct (body x acc s) as [s1 [acc1 | e]]; [| reflexivity].
  rewrite IH. reflexivity.
Qed.

Lemma dispatch_body_stops_with (CTAO_blazar : Utils.catalog)
      (pdf : batch) (a : alert) (out : list container) (s : log) :
  py_index (filter (fun x => (candid x =? candid a)%Z) pdf) 0 = Ok a ->
  passes CTAO_blazar a = false ->
  snd (dispatch_body apparent_flux Utils.module_globals CTAO_blazar
                     pdf (candid a) out s)
  = Raise (stops_with a).
Proof.
  intros Hfirst Hp. unfold passes in Hp. unfold stops_with.
  destruct (all_same (array_lengths a)) eqn:Hsame; cbn [negb].
  - destruct (Nat.eqb (epochs a) 0) eqn:Hn.
    + apply Nat.eqb_eq in Hn.
      unfold dispatch_body, bind, lift.
      now rewrite Hfirst, (frame_empty a Hsame Hn).
    + apply Nat.eqb_neq in Hn. cbn [andb negb] in Hp.
      apply negb_false_iff in Hp.
      destruct (frame_head a Hsame Hn) as (r & rest & Hdf & Hobj & _).
      unfold dispatch_body, bind, lift. rewrite Hfirst, Hdf.
      rewrite <- Hobj in Hp.
      now rewrite (run_present_unbound apparent_flux r rest CTAO_blazar s Hp).
  - now rewrite (dispatch_body_ragged apparent_flux Utils.module_globals
                   CTAO_blazar pdf a out s Hfirst Hsame).
Qed.

(** X15. As shipped, on a batch with distinct [candid] values the first
    row, in batch order, that does not pass decides the exception of the
    whole call: [ValueError] when its arrays differ in length,
    [IndexError] when it has no epoch, [NameError] when its objectId has
    a row in the catalog; the entries computed for the rows before it are
    not returned. *)
Theorem first_failing_row_decides (CTAO_parquet : Utils.catalog)
        (pre post : batch) (a : alert) (s : log) :
  distinct (map candid (pre ++ a :: post)) = true ->
  forallb (passes CTAO_parquet) pre = true ->
  passes CTAO_parquet a = false ->
  snd (standardized_flux Utils.module_globals CTAO_parquet
                         (pre ++ a :: post) s)
  = Raise (stops_with a).
Proof.
  intros Hd Hpre Ha. unfold Processor.standardized_flux.
  set (pdf := pre ++ a :: post) in *.
  replace (map candid pdf) with (map candid pre ++ map candid (a :: post))
    by (unfold pdf; now rewrite map_app).
  rewrite for_each_app. unfold bind at 1.
  rewrite (loop_passes Utils.module_globals CTAO_parquet pdf Hd pre).
  - cbn [map for_each]. unfold bind.
    assert (Hin : In a pdf) by (unfold pdf; apply in_elt).
    pose proof (dispatch_body_stops_with CTAO_parquet pdf a
                  ([] ++ map nan_container pre)
                  (s ++ map (fun x => CatalogLookup (objectId x)) pre)
                  (first_of_candid pdf a Hd Hin) Ha) as Hstop.
    destruct (dispatch_body _ _ _ _ _ _ _) as [s1 [out1 | e]];
      cbn [snd] in Hstop; [discriminate | exact Hstop].
  - intros b Hb. split.
    + unfold pdf. apply in_or_app. now left.
    + now apply (proj1 (forallb_forall _ _) Hpre).
Qed.

(** *** What a returning call holds *)

Lemma for_each_appends {A B} (body : A -> list B -> M (list B)) (l : list A) :
  (forall x acc s s' acc',
      body x acc s = (s', Ok acc') -> length acc' = S (length acc)) ->
  forall acc s s' acc',
    for_each l body acc s = (s', Ok acc') ->
    length acc' = length acc + length l.
Proof.
  intros Hb. induction l as [| x t IH]; intros acc s s' acc'.
  - cbn. unfold ret. intros [= _ <-]. lia.
  - cbn [for_each length]. unfold bind.
    destruct (body x acc s) as [s1 [acc1 | e]] eqn:E; [| discriminate].
    intros Hrest. apply IH in Hrest. apply Hb in E. lia.
Qed.

Lemma for_each_invariant {A S} (P : S -> Prop) (body : A -> S -> M S)
      (l : list A) :
  (forall x acc s s' acc', P acc -> body x acc s = (s', Ok acc') -> P acc') ->
  forall acc s s' acc',
    P acc -> for_each l body acc s = (s', Ok acc') -> P acc'.
Proof.
  intros Hb. induction l as [| x t IH]; intros acc s s' acc' Hacc.
  - cbn. unfold ret. now intros [= _ <-].
  - cbn [for_each]. unfold bind.
    destruct (body x acc s) as [s1 [acc1 | e]] eqn:E; [| discriminate].
    apply IH. exact (Hb x acc s s1 acc1 Hacc E).
Qed.

(** X9. Whenever the dispatcher returns, it returns one entry per row of
    the batch, whatever [precomputed_data] is. *)
Theorem one_entry_per_row (g : Utils.globals) (CTAO_parquet : Utils.catalog)
        (pdf : batch) (s s' : log) (out : list container) :
  standardized_flux g CTAO_parquet pdf s = (s', Ok out) ->
  length out = length pdf.
Proof.
  unfold Processor.standardized_flux. intros Hrun.
  apply for_each_appends in Hrun.
  - now rewrite length_map in Hrun.
  - intros c acc s0 s1 acc' Hbody.
    apply dispatch_body_Ok in Hbody.
    destruct Hbody as (sub & f & sg & _ & ->).
    rewrite length_app. cbn. lia.
Qed.

(** X10. As shipped ([precomputed_data] unbound), whenever the dispatcher
    returns, every entry holds nothing but NaN in [flux] and in [sigma]:
    no batch ever yields a standardized value. *)
Theorem dispatcher_returns_only_nan (CTAO_parquet : Utils.catalog)
        (pdf : batch) (s s' : log) (out : list container) :
  standardized_flux Utils.module_globals CTAO_parquet pdf s = (s', Ok out) ->
  Forall (fun c => Forall (fun v => v = nan) (flux c)
                   /\ Forall (fun v => v = nan) (sigma c)) out.
Proof.
  unfold Processor.standardized_flux.
  apply for_each_invariant; [| constructor].
  intros c acc s0 s1 acc' Hacc Hbody.
  apply dispatch_body_Ok in Hbody.
  destruct Hbody as (sub & f & sg & Hrun & ->).
  apply Ok_run_inversion in Hrun.
  destruct Hrun as (_ & _ & _ & _ & _ & -> & ->).
  apply Forall_app. split; [exact Hacc |].
  constructor; [| constructor]. cbn [flux sigma].
  split; apply np_full_all.
Qed.

(** *** Rows that share a key *)

Lemma first_row_find (P : alert -> bool) (l : batch) :
  py_index (filter P l) 0
  = match find P l with Some x => Ok x | None => Raise IndexError end.
Proof.
  induction l as [| a t IH]; cbn [filter find].
  - apply py_index_nil.
  - destruct (P a); [apply py_index_head | exact IH].
Qed.

Lemma find_past (P : alert -> bool) (pre post : batch) :
  existsb P pre = true -> find P (pre ++ post) = find P pre.
Proof.
  induction pre as [| a t IH]; [discriminate |].
  cbn [existsb app find]. destruct (P a); [reflexivity | exact IH].
Qed.

Lemma find_skips (P : alert -> bool) (pre post : batch) (b b' : alert) :
  P b = false -> P b' = false ->
  find P (pre ++ b :: post) = find P (pre ++ b' :: post).
Proof.
  intros Hb Hb'. induction pre as [| a t IH]; cbn [app find].
  - now rewrite Hb, Hb'.
  - now rewrite IH.
Qed.

(** X11. A row whose [candid] already occurs earlier in the batch is
    never read: the loop takes the first row carrying each value, so
    putting any other row with that [candid] in its place leaves the
    calls made and the outcome as they are. *)
Theorem duplicate_candid_shadowed (g : Utils.globals)
        (CTAO_parquet : Utils.catalog) (pre post : batch) (b b' : alert)
        (s : log) :
  candid b' = candid b ->
  existsb (fun x => (candid x =? candid b)%Z) pre = true ->
  standardized_flux g CTAO_parquet (pre ++ b :: post) s
  = standardized_flux g CTAO_parquet (pre ++ b' :: post) s.
Proof.
  intros Heq Hpre. unfold Processor.standardized_flux.
  rewrite !map_app. cbn [map]. rewrite Heq.
  apply for_each_ext. intros c out s0.
  unfold dispatch_body. rewrite !first_row_find.
  replace (find (fun a => (candid a =? c)%Z) (pre ++ b' :: post))
    with (find (fun a => (candid a =? c)%Z) (pre ++ b :: post));
    [reflexivity |].
  destruct (Z.eqb_spec (candid b) c) as [<- | Hne].
  - now rewrite !find_past.
  - apply find_skips.
    + now apply Z.eqb_neq.
    + rewrite Heq. now apply Z.eqb_neq.
Qed.

End DispatcherCoverage.

(* ===================================================================== *)
(** ** Lengths of the sequences returned                                 *)
(* ===================================================================== *)

Section NormalizerLengths.

Import Utils.

Variable apparent_flux : float -> float -> float -> float -> string -> float * float.

Lemma mask_assign_length {A} (arr : list A) :
  forall (mask : list bool) (vals arr' : list A),
    mask_assign arr mask vals = Ok arr' -> length arr' = length arr.
Proof.
  induction arr as [| x arr IH]; intros mask vals arr'; destruct mask as [| b mask];
    cbn [mask_assign]; try discriminate.
  - destruct vals; [now intros [= <-] | discriminate].
  - destruct b.
    + destruct vals as [| v vals]; [discriminate |].
      destruct (mask_assign arr mask vals) as [r |] eqn:E; [| discriminate].
      cbn [rmap]. intros [= <-]. cbn [length]. f_equal. exact (IH _ _ _ E).
    + destruct (mask_assign arr mask vals) as [r |] eqn:E; [| discriminate].
      cbn [rmap]. intros [= <-]. cbn [length]. f_equal. exact (IH _ _ _ E).
Qed.

Lemma filter_body_lengths (g : globals) (pdf : DataFrame)
      (flux_dc sigma_flux_dc : list float) (fid : Z)
      (acc acc' : list float * list float) (s s' : log) :
  filter_body g pdf flux_dc sigma_flux_dc fid acc s = (s', Ok acc') ->
  length (fst acc') = length (fst acc) /\ length (snd acc') = length (snd acc).
Proof.
  destruct acc as [std_flux sigma_std_flux].
  unfold filter_body, bind, lift, ret.
  destruct (global_precomputed_data g); [| discriminate].
  destruct (py_index _ 0); [| discriminate].
  destruct (py_index _ (fid - 1)); [| discriminate].
  destruct (mask_select flux_dc _); [| discriminate].
  destruct (mask_assign std_flux _ _) eqn:E1; [| discriminate].
  destruct (mask_select sigma_flux_dc _); [| discriminate].
  destruct (mask_assign sigma_std_flux _ _) eqn:E2; [| discriminate].
  intros [= _ <-]. cbn [fst snd].
  split; eapply mask_assign_length; eassumption.
Qed.

(** X12. Whenever the normalizer returns, both sequences have the length
    of the history, whatever [precomputed_data] is bound to: the loop
    over the filters rewrites entries in place and never changes the
    length of the arrays of lines 31-32. *)
Theorem output_lengths (g : globals) (pdf : DataFrame) (CTAO_blazar : catalog)
        (s s' : log) (std_flux sigma_std_flux : list float) :
  standardized_flux_ apparent_flux g pdf CTAO_blazar s
  = (s', Ok (std_flux, sigma_std_flux)) ->
  length std_flux = length pdf /\ length sigma_std_flux = length pdf.
Proof.
  destruct pdf as [| r rest]; [cbn; discriminate |].
  destruct (in_catalog CTAO_blazar (objectId r)) eqn:Hin.
  - rewrite (run_present apparent_flux g r rest CTAO_blazar s Hin).
    intros Hloop.
    apply (for_each_invariant
             (fun acc => length (fst acc) = length (r :: rest)
                         /\ length (snd acc) = length (r :: rest)))
      in Hloop; [exact Hloop | |].
    + intros fid acc s0 s1 acc' [H1 H2] Hbody.
      apply filter_body_lengths in Hbody. destruct Hbody as [E1 E2].
      split; congruence.
    + unfold np_full. cbn [fst snd]. now rewrite repeat_length.
  - rewrite (run_absent apparent_flux g r rest CTAO_blazar s Hin).
    intros [= _ <- <-]. unfold np_full. cbn [length]. now rewrite repeat_length.
Qed.

End NormalizerLengths.

(* ===================================================================== *)
(** ** The further theorems at concrete alerts and batches               *)
(* ===================================================================== *)

Section CoverageScenarios.

Import Utils Samples.
Local Open Scope string_scope.

Lemma returns_only_nan_witness :
  standardized_flux_ sample_flux module_globals unmonitored monitored []
  = ([CatalogLookup "ZTF19bbbbbbb"], Ok ([nan; nan], [nan; nan]))
  /\ length [nan; nan] = length unmonitored
  /\ length [nan; nan] = length unmonitored
  /\ Forall (fun v => v = nan) [nan; nan]
  /\ Forall (fun v => v = nan) [nan; nan]
  /\ exists r rest,
       unmonitored = r :: rest /\ in_catalog monitored (objectId r) = false.
Proof.
  split; [reflexivity |].
  apply (returns_only_nan sample_flux unmonitored monitored []
           [CatalogLookup "ZTF19bbbbbbb"] [nan; nan] [nan; nan]).
  reflexivity.
Defined.

Lemma catalog_read_for_presence_only_witness :
  in_catalog monitored "ZTF18aaaaaaa" = in_catalog monitored_twice "ZTF18aaaaaaa"
  /\ standardized_flux_ sample_flux {| precomputed_data := Some monitored |}
                        two_filters monitored []
     = standardized_flux_ sample_flux {| precomputed_data := Some monitored |}
                          two_filters monitored_twice [].
Proof.
  split; [reflexivity |].
  apply (catalog_read_for_presence_only sample_flux
           {| precomputed_data := Some monitored |}
           (epoch "ZTF18aaaaaaa" 4 0.5 1) [epoch "ZTF18aaaaaaa" 6 0.25 2]
           monitored monitored_twice []).
  reflexivity.
Defined.

Lemma bound_name_out_of_range_witness :
  is_Raise (py_index [2%float] (2 - 1)) = true
  /\ standardized_flux_ sample_flux {| precomputed_data := Some monitored_short |}
                        two_filters monitored []
     = (CatalogLookup "ZTF18aaaaaaa" :: map flux_event two_filters,
        Raise IndexError).
Proof.
  split; [reflexivity |].
  apply (bound_name_out_of_range sample_flux
           {| precomputed_data := Some monitored_short |} monitored_short
           [2%float]
           (epoch "ZTF18aaaaaaa" 4 0.5 1) [epoch "ZTF18aaaaaaa" 6 0.25 2]
           monitored [] (epoch "ZTF18aaaaaaa" 6 0.25 2)).
  - reflexivity.
  - reflexivity.
  - reflexivity.
  - simpl. right. left. reflexivity.
  - reflexivity.
Defined.

Lemma bound_name_divides_witness :
  in_catalog monitored "ZTF18aaaaaaa" = true
  /\ standardized_flux_ sample_flux {| precomputed_data := Some monitored |}
                        two_filters monitored_short []
     = (CatalogLookup "ZTF18aaaaaaa" :: map flux_event two_filters,
        Ok (map (fun e => PrimFloat.div
                            (PrimFloat.mul 1000 (fst (flux_of sample_flux e)))
                            (median_of [2%float; 4%float] (cfid e)))
                two_filters,
            map (fun e => PrimFloat.div
                            (PrimFloat.mul 1000 (snd (flux_of sample_flux e)))
                            (median_of [2%float; 4%float] (cfid e)))
                two_filters)).
Proof.
  split; [reflexivity |].
  apply (bound_name_divides sample_flux
           {| precomputed_data := Some monitored |} monitored
           [2%float; 4%float]
           (epoch "ZTF18aaaaaaa" 4 0.5 1) [epoch "ZTF18aaaaaaa" 6 0.25 2]
           monitored_short []).
  - reflexivity.
  - reflexivity.
  - reflexivity.
  - simpl. intros e [<- | [<- | []]]; eexists; reflexivity.
Defined.

Lemma output_lengths_witness :
  standardized_flux_ sample_flux {| precomputed_data := Some monitored |}
                     two_filters monitored []
  = (CatalogLookup "ZTF18aaaaaaa" :: map flux_event two_filters,
     Ok ([2000%float; 1500%float], [250%float; 62.5%float]))
  /\ length [2000%float; 1500%float] = length two_filters
  /\ length [250%float; 62.5%float] = length two_filters.
Proof.
  split; [reflexivity |].
  apply (output_lengths sample_flux {| precomputed_data := Some monitored |}
           two_filters monitored []
           (CatalogLookup "ZTF18aaaaaaa" :: map flux_event two_filters)).
  reflexivity.
Defined.

Lemma frame_columns_witness :
  Processor.all_same (Processor.array_lengths regular_two) = true
  /\ exists df,
       Processor.pd_DataFrame regular_two = Ok df
       /\ length df = 2
       /\ map candid df = [9%Z; 9%Z]
       /\ map objectId df = ["ZTF19bbbbbbb"; "ZTF19bbbbbbb"]
       /\ map cdistnr df = Processor.cdistnr regular_two
       /\ map cmagpsf df = Processor.cmagpsf regular_two
       /\ map csigmapsf df = Processor.csigmapsf regular_two
       /\ map cmagnr df = Processor.cmagnr regular_two
       /\ map csigmagnr df = Processor.csigmagnr regular_two
       /\ map cisdiffpos df = Processor.cisdiffpos regular_two
       /\ map cfid df = Processor.cfid regular_two
       /\ map cjd df = Processor.cjd regular_two.
Proof.
  split; [reflexivity |].
  apply (frame_columns regular_two). reflexivity.
Defined.

Lemma unmonitored_batch_returns_nan_witness :
  Processor.distinct (map Processor.candid [regular; regular_two]) = true
  /\ forallb (Processor.passes monitored) [regular; regular_two] = true
  /\ Processor.standardized_flux sample_flux module_globals monitored
       [regular; regular_two] []
     = ([CatalogLookup "ZTF19bbbbbbb"; CatalogLookup "ZTF19bbbbbbb"],
        Ok [ {| Processor.flux := [nan]; Processor.sigma := [nan] |};
             {| Processor.flux := [nan; nan]; Processor.sigma := [nan; nan] |} ]).
Proof.
  split; [reflexivity |]. split; [reflexivity |].
  apply (unmonitored_batch_returns_nan sample_flux module_globals monitored
           [regular; regular_two] []); reflexivity.
Defined.

Lemma dispatcher_raises_iff_witness :
  Processor.distinct (map Processor.candid [regular_two; shadowed]) = true
  /\ is_Raise (snd (Processor.standardized_flux sample_flux module_globals
                      monitored [regular_two; shadowed] []))
     = negb (forallb (Processor.passes monitored) [regular_two; shadowed]).
Proof.
  split; [reflexivity |].
  apply (dispatcher_raises_iff sample_flux monitored
           [regular_two; shadowed] []).
  reflexivity.
Defined.

Lemma one_entry_per_row_witness :
  Processor.standardized_flux sample_flux module_globals monitored
    [regular; regular_two] []
  = ([CatalogLookup "ZTF19bbbbbbb"; CatalogLookup "ZTF19bbbbbbb"],
     Ok [ {| Processor.flux := [nan]; Processor.sigma := [nan] |};
          {| Processor.flux := [nan; nan]; Processor.sigma := [nan; nan] |} ])
  /\ length [ {| Processor.flux := [nan]; Processor.sigma := [nan] |};
           {| Processor.flux := [nan; nan]; Processor.sigma := [nan; nan] |} ]
  = length [regular; regular_two].
Proof.
  split; [reflexivity |].
  apply (one_entry_per_row sample_flux module_globals monitored
           [regular; regular_two] []
           [CatalogLookup "ZTF19bbbbbbb"; CatalogLookup "ZTF19bbbbbbb"]).
  reflexivity.
Defined.

Lemma dispatcher_returns_only_nan_witness :
  Forall (fun c => Forall (fun v => v = nan) (Processor.flux c)
                   /\ Forall (fun v => v = nan) (Processor.sigma c))
         [ {| Processor.flux := [nan]; Processor.sigma := [nan] |};
           {| Processor.flux := [nan; nan]; Processor.sigma := [nan; nan] |} ].
Proof.
  apply (dispatcher_returns_only_nan sample_flux monitored
           [regular; regular_two] []
           [CatalogLookup "ZTF19bbbbbbb"; CatalogLookup "ZTF19bbbbbbb"]).
  reflexivity.
Defined.

Lemma duplicate_candid_shadowed_witness :
  Processor.candid regular = Processor.candid shadowed
  /\ Processor.standardized_flux sample_flux module_globals monitored
       [regular; shadowed] []
     = Processor.standardized_flux sample_flux module_globals monitored
         [regular; regular] [].
Proof.
  split; [reflexivity |].
  apply (duplicate_candid_shadowed sample_flux module_globals monitored
           [regular] [] shadowed regular []); reflexivity.
Defined.

Lemma first_failing_row_decides_witness :
  Processor.passes monitored shadowed = false
  /\ snd (Processor.standardized_flux sample_flux module_globals monitored
            [regular_two; shadowed; ragged] [])
     = Raise NameError.
Proof.
  split; [reflexivity |].
  apply (first_failing_row_decides sample_flux monitored
           [regular_two] [ragged] shadowed []); reflexivity.
Defined.

End CoverageScenarios.

(* ===================================================================== *)
(** ** Line 52: indices without a median, and scaled fluxes              *)
(* ===================================================================== *)

Section MedianIndex.

Import Utils Samples.

Variable apparent_flux : float -> float -> float -> float -> string -> float * float.






End MedianIndex.

Section RevisedScenarios.

Import Utils Samples.
Local Open Scope string_scope.






End RevisedScenarios.
